(** * The authentication controller ([src/controllers/auth.js])

    A shallow embedding of the four route handlers of the controller
    ([authChallenge], [jwtCheck], [googleOauthCallback],
    [azureOauthCallback]), of the private session resolver
    [authenticateUser] and of the error translator [handleError], followed
    by the properties of the specification that concern them.

    JavaScript values are a small universe of data values; objects are
    finite maps from property names to values.  The handlers run in a
    state-and-exception monad over a [World] that holds the user store, the
    clock, and the traces of the calls made to the logger, to the HTTP
    client and to the store. *)

From stdpp Require Import gmap strings list fin_maps pretty.
From Stdlib Require Import ZArith Ascii String.

Set Warnings "-register-all".
Open Scope string_scope.

(** ** JavaScript values *)

Module JS.

(** Data values.  [VNum] is an integer-valued number, [VObj] a plain
    object, [VError] an [Error] instance with its [name], its [message] and
    its further own properties (an HTTP client error carries [response]
    there).  Property maps hold data properties; the methods [toString] and
    [toLowerCase] are the inherited ones, and accessors are not
    represented. *)
Inductive value :=
| VUndef
| VNull
| VBool (b : bool)
| VNum (n : Z)
| VStr (s : string)
| VObj (props : gmap string value)
| VError (name message : string) (props : gmap string value).

(** A completion: a normal value, or a thrown one (for an [async]
    function, a rejected promise). *)
Inductive result (A : Type) :=
| Return (a : A)
| Throw (e : value).
Arguments Return {A} a.
Arguments Throw {A} e.

(** [typeof x] *)
Definition typeof (v : value) : string :=
  match v with
  | VUndef => "undefined"
  | VNull => "object"
  | VBool _ => "boolean"
  | VNum _ => "number"
  | VStr _ => "string"
  | VObj _ => "object"
  | VError _ _ _ => "object"
  end.

(** ToBoolean: what [if (x)], [!x], [&&], [||] and [?:] test. *)
Definition truthy (v : value) : bool :=
  match v with
  | VUndef | VNull => false
  | VBool b => b
  | VNum n => negb (n =? 0)%Z
  | VStr s => negb (String.eqb s EmptyString)
  | VObj _ | VError _ _ _ => true
  end.

(** [typeof(v) === t] and [typeof(v) !== t] *)
Definition typeof_is (v : value) (t : string) : bool := String.eqb (typeof v) t.
Definition typeof_isnt (v : value) (t : string) : bool := negb (typeof_is v t).

(** [undefined] and [null], the two values without properties. *)
Definition nullish (v : value) : bool :=
  match v with
  | VUndef | VNull => true
  | _ => false
  end.

Definition TypeError (message : string) : value :=
  VError "TypeError" message ∅.

(** A data property of a value that is neither [undefined] nor [null]. *)
Definition own (v : value) (key : string) : value :=
  match v with
  | VObj props => default VUndef (props !! key)
  | VError name message props =>
      if String.eqb key "name" then VStr name
      else if String.eqb key "message" then VStr message
      else default VUndef (props !! key)
  | VStr s =>
      if String.eqb key "length" then VNum (Z.of_nat (String.length s))
      else VUndef
  | _ => VUndef
  end.

(** ToString, as a template literal [`${v}`] applies it. *)
Definition template (v : value) : string :=
  match v with
  | VUndef => "undefined"
  | VNull => "null"
  | VBool true => "true"
  | VBool false => "false"
  | VNum n => pretty n
  | VStr s => s
  | VObj _ => "[object Object]"
  | VError name message _ =>
      if String.eqb name EmptyString then message
      else if String.eqb message EmptyString then name
      else name ++ ": " ++ message
  end.

Definition cannot_read (v : value) (key : string) : value :=
  TypeError ("Cannot read properties of " ++ template v
             ++ " (reading '" ++ key ++ "')").

(** [v.key]: reading a property of [undefined] or [null] throws. *)
Definition get (v : value) (key : string) : result value :=
  if nullish v then Throw (cannot_read v key) else Return (own v key).

(** [v.toString()] *)
Definition toString (v : value) : result value :=
  if nullish v then Throw (cannot_read v "toString")
  else Return (VStr (template v)).

Definition is_upper (c : ascii) : bool :=
  (65 <=? nat_of_ascii c)%nat && (nat_of_ascii c <=? 90)%nat.

Definition lower_ascii (c : ascii) : ascii :=
  if is_upper c then ascii_of_nat (nat_of_ascii c + 32) else c.

(** The folding of ASCII text: the letters [A]-[Z] are mapped to [a]-[z],
    every other character is kept.  The handlers do not use it: they call
    the built-in of the environment, which also folds the letters beyond
    ASCII; this one serves the demonstration environment. *)
Fixpoint ascii_lower (s : string) : string :=
  match s with
  | EmptyString => EmptyString
  | String c rest => String (lower_ascii c) (ascii_lower rest)
  end.

(** [v.toLowerCase()], given the built-in [String.prototype.toLowerCase]
    as [fold]: only strings have the method. *)
Definition toLowerCase (fold : string -> string) (v : value) : result string :=
  match v with
  | VStr s => Return (fold s)
  | _ =>
      if nullish v then Throw (cannot_read v "toLowerCase")
      else Throw (TypeError "userEmail.toLowerCase is not a function")
  end.

(** [parts.join(sep)] on an array of strings. *)
Fixpoint join (sep : string) (parts : list string) : string :=
  match parts with
  | [] => EmptyString
  | [p] => p
  | p :: rest => p ++ sep ++ join sep rest
  end.

End JS.
Import JS.

(** ** The controller *)

Section Controller.

(** The state of the external user store. *)
Context {Store : Type}.

(** The collaborators the controller calls but does not define.
    [getUser] is [DynamoDB.users.getUser], the one operation of the user
    store the controller uses: called on a store with an email and a
    credential, it resolves to a user record or rejects, and leaves a store
    (nothing here says that it leaves the store as it found it).
    [axios_post] is [axios.post url body config], which resolves to a
    response or rejects.  [jwt_sign] is the token that [jwt.sign] gives when
    it succeeds; it depends on the clock, from which the library stamps the
    time of issue and the expiry.  [jwt_decode] is [jwt.decode], which yields
    [null] for what is no token.  [lowercase] is the built-in
    [String.prototype.toLowerCase], whose Unicode tables are no part of the
    controller.  [env] is [process.env]. *)
Record Env := {
  getUser : Store -> string -> value -> result value * Store;
  axios_post : string -> string -> value -> result value;
  jwt_sign : Z -> value -> value -> Z -> value;
  jwt_decode : value -> value;
  lowercase : string -> string;
  env : gmap string string;
}.

(** What a handler can observe and change: the store, the clock, and the
    calls made so far to [RelayLog.error], to [axios.post] and to
    [DynamoDB.users.getUser] (most recent call first). *)
Record World := {
  store : Store;
  clock : Z;
  relayLog : list (string * value);
  httpLog : list (string * string);
  storeLog : list (string * value);
}.

Definition M (A : Type) : Type := World -> result A * World.

Definition ret {A} (a : A) : M A := fun w => (Return a, w).

Definition bind {A B} (m : M A) (k : A -> M B) : M B :=
  fun w => match m w with
           | (Return a, w') => k a w'
           | (Throw e, w') => (Throw e, w')
           end.

(** A computation without effect on the world. *)
Definition lift {A} (r : result A) : M A := fun w => (r, w).

(** [try { x = m } catch (error) { return handler(error) }; k(x)] *)
Definition try_or_return {A B} (m : M A) (handler : value -> M B) (k : A -> M B) : M B :=
  fun w => match m w with
           | (Return a, w') => k a w'
           | (Throw e, w') => handler e w'
           end.

Definition log_error (message : string) (detail : value) (w : World) : World :=
  {| store := store w; clock := clock w;
     relayLog := (message, detail) :: relayLog w;
     httpLog := httpLog w; storeLog := storeLog w |}.

Definition log_http (url body : string) (w : World) : World :=
  {| store := store w; clock := clock w; relayLog := relayLog w;
     httpLog := (url, body) :: httpLog w; storeLog := storeLog w |}.

Definition log_query (email : string) (password : value) (w : World) : World :=
  {| store := store w; clock := clock w; relayLog := relayLog w;
     httpLog := httpLog w; storeLog := (email, password) :: storeLog w |}.

Definition set_store (s : Store) (w : World) : World :=
  {| store := s; clock := clock w; relayLog := relayLog w;
     httpLog := httpLog w; storeLog := storeLog w |}.

Variable E : Env.

Definition RelayLog_error (message : string) (detail : value) : M unit :=
  fun w => (Return tt, log_error message detail w).

Definition http_post (url body : string) (config : value) : M value :=
  fun w => (axios_post E url body config, log_http url body w).

(** The world after [DynamoDB.users.getUser email password]: the store
    is the one that the call leaves, and the call is on the trace. *)
Definition after_query (email : string) (password : value) (w : World) : World :=
  log_query email password
    (set_store (snd (getUser E (store w) email password)) w).

Definition users_getUser (email : string) (password : value) : M value :=
  fun w => (fst (getUser E (store w) email password),
            after_query email password w).

(** What [jwt.sign] throws when it is given no secret. *)
Definition secret_missing : value :=
  VError "Error" "secretOrPrivateKey must have a value" ∅.

(** [jwt.sign payload secret {expiresIn}]: the library refuses a secret
    that is [undefined] or empty. *)
Definition sign (payload secret : value) (expiresIn : Z) : M value :=
  fun w => if truthy secret
           then (Return (jwt_sign E (clock w) payload secret expiresIn), w)
           else (Throw secret_missing, w).

(** [process.env.NAME] *)
Definition process_env (name : string) : value :=
  match env E !! name with
  | Some s => VStr s
  | None => VUndef
  end.

Definition JWT_VALID_SECONDS : Z := 14 * 24 * 60 * 60.
Definition ONE_HOUR : Z := 60 * 60.

Notation "x <- m ;; k" := (bind m (fun x => k))
  (at level 100, m at next level, k at level 200, right associativity).
Notation "v .[ key ]" := (lift (get v key))
  (at level 1, left associativity, format "v .[ key ]").

(** *** HANDLE ERROR: logs the error and crafts the API response *)
Definition handleError (error : value) (type : string) : M value :=
  _ <- RelayLog_error ("[Err] auth - " ++ type) error ;;
  carried <- (if truthy error then
                response <- error.["response"] ;;
                if truthy response then response.["data"] else ret response
              else ret error) ;;
  if truthy carried then
    response <- error.["response"] ;;
    data <- response.["data"] ;;
    err <- data.["error"] ;;
    description <- data.["error_description"] ;;
    message <- (if truthy description then ret description
                else lift (toString error)) ;;
    ret (VObj {[ "error" := err; "message" := message; "type" := VStr type ]})
  else
    ret (VObj {[ "error" := error; "type" := VStr type ]}).

(** *** AUTHENTICATE USER: grabs a user and crafts the API response *)
Definition authenticateUser (options : value) : M value :=
  userEmail <- options.["userEmail"] ;;
  password <- options.["password"] ;;
  customerId <- options.["customerId"] ;;
  previousJwt <- options.["previousJwt"] ;;
  redirectUrl <- options.["redirectUrl"] ;;
  try_or_return
    (email <- lift (toLowerCase (lowercase E) userEmail) ;;
     users_getUser email password)
    (fun error => handleError error "authenticateUser")
    (fun user =>
       newJWT <- (if truthy previousJwt then ret previousJwt
                  else
                    uEmail <- user.["email"] ;;
                    u_cId <- user.["customer_id"] ;;
                    sign (VObj {[ "data" := VObj {[ "cId" := customerId;
                                                    "uEmail" := uEmail;
                                                    "u_cId" := u_cId ]} ]})
                         (process_env "JWT_SECRET") JWT_VALID_SECONDS) ;;
       ret (VObj {[ "jwt" := newJWT; "serial" := customerId;
                    "user" := user; "redirectUrl" := redirectUrl ]})).

(** *** AUTH CHALLENGE: normal username/password login *)
Definition authChallenge (request : value) : M value :=
  if typeof_is request "undefined" then
    handleError (VStr "request must be defined") "bad params"
  else
    body <- request.["body"] ;;
    if typeof_isnt body "object" || negb (truthy body) then
      handleError (VStr "jsonBody required") "bad params"
    else
      let params := body in
      username <- params.["username"] ;;
      if typeof_is username "undefined" then
        handleError (VStr "username required") "bad params"
      else if typeof_isnt username "string" then
        handleError (VStr "username must be a string") "bad params"
      else
        password <- params.["password"] ;;
        if typeof_is password "undefined" then
          handleError (VStr "password required") "bad params"
        else if typeof_isnt password "string" then
          handleError (VStr "password must be a string") "bad params"
        else
          normalizedHeaders <- request.["normalizedHeaders"] ;;
          token <- normalizedHeaders.["jwt"] ;;
          let authenticateOptions :=
            VObj {[ "userEmail" := username; "password" := password;
                    "jwt" := token ]} in
          authenticateUser authenticateOptions.

(** *** JWT CHECK: authenticates a JWT token *)
Definition jwtCheck (request : value) : M value :=
  jwtPayload <- request.["jwtPayload"] ;;
  data <- jwtPayload.["data"] ;;
  uEmail <- data.["uEmail"] ;;
  cId <- data.["cId"] ;;
  normalizedHeaders <- request.["normalizedHeaders"] ;;
  token <- normalizedHeaders.["jwt"] ;;
  let authenticateOptions :=
    VObj {[ "userEmail" := uEmail; "customerId" := cId; "jwt" := token ]} in
  authenticateUser authenticateOptions.

Definition form_urlencoded : value :=
  VObj {[ "headers" :=
            VObj {[ "Content-Type" := VStr "application/x-www-form-urlencoded" ]} ]}.

(** *** GOOGLE OAUTH CALLBACK *)
Definition googleOauthCallback (request : value) : M value :=
  if typeof_is request "undefined" then
    handleError (VStr "request must be defined") "bad params"
  else
    body <- request.["body"] ;;
    code <- body.["code"] ;;
    if typeof_isnt code "string" then
      handleError (VStr "code must be a string") "bad params"
    else
      redirect_url <- body.["redirect_url"] ;;
      if typeof_isnt redirect_url "string" then
        handleError (VStr "redirect_url must be a string") "bad params"
      else
        let params :=
          [ "client_id=250992307284-m88p8nub2ormiak916etcu4ke3o850it.apps.googleusercontent.com";
            "client_secret=" ++ template (process_env "GOOGLE_SECRET");
            "redirect_uri=" ++ template redirect_url;
            "grant_type=authorization_code";
            "code=" ++ template code ] in
        try_or_return
          (http_post "https://accounts.google.com/o/oauth2/token"
                     (join "&" params) form_urlencoded)
          (fun error => handleError error "googleOauthResponse")
          (fun googleResponse =>
             data <- googleResponse.["data"] ;;
             id_token <- data.["id_token"] ;;
             let decodedIdToken := jwt_decode E id_token in
             email <- decodedIdToken.["email"] ;;
             let authenticateOptions := VObj {[ "userEmail" := email ]} in
             authenticateUser authenticateOptions).

(** *** AZURE OAUTH CALLBACK *)
Definition azureOauthCallback (request : value) : M value :=
  if typeof_is request "undefined" then
    handleError (VStr "request must be defined") "bad params"
  else
    body <- request.["body"] ;;
    code <- body.["code"] ;;
    if typeof_isnt code "string" then
      handleError (VStr "code must be a string") "bad params"
    else
      redirect_url <- body.["redirect_url"] ;;
      if typeof_isnt redirect_url "string" then
        handleError (VStr "redirect_url must be a string") "bad params"
      else
        let params :=
          [ "client_id=" ++ template (process_env "AZURE_CLIENT_ID");
            "client_secret=" ++ template (process_env "AZURE_CLIENT_SECRET");
            "resource=https://graph.windows.net/";
            "redirect_uri=" ++ template redirect_url;
            "grant_type=authorization_code";
            "code=" ++ template code ] in
        try_or_return
          (http_post "https://login.microsoftonline.com/common/oauth2/token"
                     (join "&" params) form_urlencoded)
          (fun error => handleError error "azureOauthResponse")
          (fun azureResponse =>
             data <- azureResponse.["data"] ;;
             id_token <- data.["id_token"] ;;
             let decodedIdToken := jwt_decode E id_token in
             upn <- decodedIdToken.["upn"] ;;
             let authenticateOptions := VObj {[ "userEmail" := upn ]} in
             authenticateUser authenticateOptions).

(** *** [module.exports.routes] *)
Inductive route :=
| root_post
| jwt_check_get
| google_callback_post
| azure_callback_post.

Definition routes (r : route) : value -> M value :=
  match r with
  | root_post => authChallenge
  | jwt_check_get => jwtCheck
  | google_callback_post => googleOauthCallback
  | azure_callback_post => azureOauthCallback
  end.

End Controller.

Arguments Env : clear implicits.
Arguments World : clear implicits.

(** ** The specification's vocabulary *)

Module Spec.

(** The nested provider-response payload [error.response.data] of an HTTP
    client error, when the error carries one. *)
Definition provider_payload (error : value) : option value :=
  let response := own error "response" in
  let data := own response "data" in
  if truthy error && truthy response && truthy data then Some data else None.

(** The uniform failure envelope: [{error, message, type}] for an error
    with a provider payload, [{error, type}] otherwise. *)
Definition ReportableError (error : value) (type : string) : value :=
  match provider_payload error with
  | Some payload =>
      let description := own payload "error_description" in
      VObj {[ "error" := own payload "error";
              "message" := if truthy description then description
                           else VStr (template error);
              "type" := VStr type ]}
  | None => VObj {[ "error" := error; "type" := VStr type ]}
  end.

Definition is_ReportableError (v : value) : Prop :=
  exists error type, v = ReportableError error type.

(** The success envelope. *)
Definition is_AuthResult (v : value) : Prop :=
  exists token serial user redirectUrl,
    v = VObj {[ "jwt" := token; "serial" := serial; "user" := user;
                "redirectUrl" := redirectUrl ]}.

(** A normal completion with one of the two envelopes. *)
Definition returns_normally (outcome : result value) : Prop :=
  exists v, outcome = Return v /\ (is_AuthResult v \/ is_ReportableError v).

(** The token of an outcome. *)
Definition token (outcome : result value) : value :=
  match outcome with
  | Return v => own v "jwt"
  | Throw _ => VUndef
  end.

(** The store is queried at most once more, by a lower-cased key. *)
Definition lowercase_query {Store} (E : Env Store)
    (before after : list (string * value)) : Prop :=
  after = before
  \/ exists u password, after = (lowercase E u, password) :: before.

(** How a run that has to sign ends: with [outcome] when [JWT_SECRET] is
    set, with the exception of [jwt.sign] when it is not. *)
Definition signed {Store} (E : Env Store) (outcome : result value) : result value :=
  if truthy (process_env E "JWT_SECRET") then outcome else Throw secret_missing.


(** The payload of a session token. *)
Definition claims (customerId user : value) : value :=
  VObj {[ "data" := VObj {[ "cId" := customerId;
                            "uEmail" := own user "email";
                            "u_cId" := own user "customer_id" ]} ]}.

(** The success envelope around a token minted at the clock's time, valid
    for 1,209,600 seconds. *)
Definition minted {Store} (E : Env Store)
    (customerId user redirectUrl : value) (w : World Store) : value :=
  VObj {[ "jwt" := jwt_sign E (clock w) (claims customerId user)
                     (process_env E "JWT_SECRET") 1209600;
          "serial" := customerId;
          "user" := user;
          "redirectUrl" := redirectUrl ]}.

(** A bad-parameter error that names [field]: its text starts with it. *)
Definition bad_parameter (field : string) (outcome : result value) : Prop :=
  exists message,
    outcome = Return (VObj {[ "error" := VStr message; "type" := VStr "bad params" ]})
    /\ String.prefix field message = true.

Definition is_object (v : value) : bool :=
  match v with
  | VObj _ | VError _ _ _ => true
  | _ => false
  end.

(** A required string field that is missing or of another type. *)
Definition missing_or_wrong (holder : value) (field : string) : bool :=
  typeof_isnt (own holder field) "string".

(** The first offending required input of a request, per entry path:
    the request itself, the JSON body of a login, then the required
    string fields in order. *)
Definition first_offending (r : route) (request : value) : option string :=
  if typeof_is request "undefined" then Some "request"
  else match r with
       | root_post =>
           let body := own request "body" in
           if is_object body
           then List.find (missing_or_wrong body) ["username"; "password"]
           else Some "jsonBody"
       | jwt_check_get =>
           List.find (missing_or_wrong (own (own request "jwtPayload") "data"))
                     ["uEmail"]
       | google_callback_post | azure_callback_post =>
           List.find (missing_or_wrong (own request "body"))
                     ["code"; "redirect_url"]
       end.

(** Where a path validates its fields: a login that is not [null]; an
    OAuth callback that is [undefined] or has a body; never a recheck. *)
Definition validated (r : route) (request : value) : Prop :=
  match r with
  | root_post => request <> VNull
  | jwt_check_get => False
  | google_callback_post | azure_callback_post =>
      request = VUndef \/ nullish (own request "body") = false
  end.

(** The request context a path relies on: the normalized headers once a
    login has passed validation; the verified token payload and the
    headers of a recheck; the body of an OAuth callback. *)
Definition in_context (r : route) (request : value) : Prop :=
  match r with
  | root_post =>
      request <> VNull
      /\ (first_offending root_post request = None ->
          nullish (own request "normalizedHeaders") = false)
  | jwt_check_get =>
      nullish (own (own request "jwtPayload") "data") = false
      /\ nullish (own request "normalizedHeaders") = false
  | google_callback_post | azure_callback_post =>
      request = VUndef \/ nullish (own request "body") = false
  end.

(** The store [s] resolves to user records only. *)
Definition resolves_records {Store} (E : Env Store) (s : Store) : Prop :=
  forall email password user,
    fst (getUser E s email password) = Return user -> nullish user = false.

(** Every granted exchange carries an identity token that decodes. *)
Definition grants_identity {Store} (E : Env Store) : Prop :=
  forall url body config response,
    axios_post E url body config = Return response ->
    nullish (own response "data") = false
    /\ nullish (jwt_decode E (own (own response "data") "id_token")) = false.

(** The two identity providers. *)
Inductive provider := google | azure.

Definition callback (p : provider) : route :=
  match p with
  | google => google_callback_post
  | azure => azure_callback_post
  end.

Definition provider_tag (p : provider) : string :=
  match p with
  | google => "googleOauthResponse"
  | azure => "azureOauthResponse"
  end.

Definition identity_claim (p : provider) : string :=
  match p with
  | google => "email"
  | azure => "upn"
  end.

Definition token_endpoint (p : provider) : string :=
  match p with
  | google => "https://accounts.google.com/o/oauth2/token"
  | azure => "https://login.microsoftonline.com/common/oauth2/token"
  end.

(** The client identification and the fixed parameters of a provider. *)
Definition provider_params {Store} (E : Env Store) (p : provider) : list string :=
  match p with
  | google =>
      [ "client_id=250992307284-m88p8nub2ormiak916etcu4ke3o850it.apps.googleusercontent.com";
        "client_secret=" ++ template (process_env E "GOOGLE_SECRET") ]
  | azure =>
      [ "client_id=" ++ template (process_env E "AZURE_CLIENT_ID");
        "client_secret=" ++ template (process_env E "AZURE_CLIENT_SECRET");
        "resource=https://graph.windows.net/" ]
  end.

(** The form-encoded body of the code exchange. *)
Definition exchange_form {Store} (E : Env Store) (p : provider)
    (code redirect_url : string) : string :=
  join "&" (List.app (provider_params E p)
                     [ "redirect_uri=" ++ redirect_url;
                       "grant_type=authorization_code";
                       "code=" ++ code ]).


End Spec.

(** ** A concrete environment

    A small store and toy collaborators on which the handlers can be run. *)

Module Demo.

(** The store maps a lower-cased email to a password and a user record.
    The query checks the password when one is supplied. *)
Abbreviation Store := (gmap string (string * value)).

Definition password_ok (expected : string) (password : value) : bool :=
  match password with
  | VUndef => true
  | VStr given => String.eqb expected given
  | _ => false
  end.

Definition invalid_credentials : value := VError "Error" "Invalid credentials" ∅.
Definition user_not_found : value := VError "Error" "User not found" ∅.

Definition lookup_user (s : Store) (email : string) (password : value) : result value :=
  match s !! email with
  | Some (expected, user) =>
      if password_ok expected password then Return user
      else Throw invalid_credentials
  | None => Throw user_not_found
  end.

(** The toy signer writes the three claims, the time of issue, the expiry
    time and the secret into the token. *)
Definition toy_sign (now : Z) (payload secret : value) (expiresIn : Z) : value :=
  let data := own payload "data" in
  VStr (join "." [ template (own data "cId"); template (own data "uEmail");
                   template (own data "u_cId"); pretty now;
                   pretty (now + expiresIn)%Z; template secret ]).

(** The toy identity token is the email address itself. *)
Definition toy_decode (token : value) : value :=
  match token with
  | VStr s => VObj {[ "email" := VStr s; "upn" := VStr s ]}
  | _ => VNull
  end.

(** The token endpoint answers every exchange with [exchange]; the lookup
    leaves the store as it is; the built-in folds ASCII letters. *)
Definition environment (exchange : result value) : Env Store :=
  {| getUser := fun s email password => (lookup_user s email password, s);
     axios_post := fun _ _ _ => exchange;
     jwt_sign := toy_sign;
     jwt_decode := toy_decode;
     lowercase := ascii_lower;
     env := {[ "JWT_SECRET" := "s3cret"; "GOOGLE_SECRET" := "g-secret";
               "AZURE_CLIENT_ID" := "az-id";
               "AZURE_CLIENT_SECRET" := "az-secret" ]} |}.

Definition granted (id_token : string) : result value :=
  Return (VObj {[ "status" := VNum 200;
                  "data" := VObj {[ "id_token" := VStr id_token ]} ]}).

Definition refusal : value :=
  VError "Error" "Request failed with status code 400"
    {[ "response" :=
         VObj {[ "status" := VNum 400;
                 "data" := VObj {[ "error" := VStr "invalid_grant";
                                   "error_description" := VStr "Bad Request" ]} ]} ]}.

Definition denied : result value := Throw refusal.

Definition bob : value :=
  VObj {[ "email" := VStr "bob@x.com"; "customer_id" := VStr "C1" ]}.

Definition users : Store := {[ "bob@x.com" := ("p1", bob) ]}.

Definition world (now : Z) : World Store :=
  {| store := users; clock := now; relayLog := []; httpLog := []; storeLog := [] |}.

Definition login (username password : value) : value :=
  VObj {[ "body" := VObj {[ "username" := username; "password" := password ]};
          "normalizedHeaders" := VObj ∅ ]}.

Definition recheck (uEmail cId token : value) : value :=
  VObj {[ "jwtPayload" := VObj {[ "data" := VObj {[ "uEmail" := uEmail; "cId" := cId ]} ]};
          "normalizedHeaders" := VObj {[ "jwt" := token ]} ]}.

Definition callback (code redirect_url : value) : value :=
  VObj {[ "body" := VObj {[ "code" := code; "redirect_url" := redirect_url ]} ]}.

(** One second later. *)
Definition tick (w : World Store) : World Store :=
  {| store := store w; clock := (clock w + 1)%Z; relayLog := relayLog w;
     httpLog := httpLog w; storeLog := storeLog w |}.

(** The exchange is refused, or granted for an identity token. *)
Definition refusing : Env Store := environment denied.
Definition granting (id_token : string) : Env Store :=
  environment (granted id_token).

Definition bob_login : value := login (VStr "bob@x.com") (VStr "p1").

Definition bob_recheck : value :=
  recheck (VStr "bob@x.com") (VStr "C1") (VStr "prior.token").

Definition bob_session : value :=
  VObj {[ "jwt" := VStr "undefined.bob@x.com.C1.100.1209700.s3cret";
          "serial" := VUndef; "user" := bob; "redirectUrl" := VUndef ]}.

Definition nameless_recheck : value :=
  recheck VUndef (VStr "C1") (VStr "prior.token").

Definition a_callback : value := callback (VStr "c0de") (VStr "https://app/cb").

Definition codeless_callback : value :=
  callback (VNum 7) (VStr "https://app/cb").

Definition as_alice : value := VObj {[ "userEmail" := VStr "Alice@Example.com" ]}.

End Demo.

(** ** Outcomes and traces of the entry points *)

Module Outcomes.

(** The stage tags an entry path reports. *)
Definition failure_tags (r : route) : list string :=
  match r with
  | root_post => ["bad params"; "authenticateUser"]
  | jwt_check_get => ["authenticateUser"]
  | google_callback_post => ["bad params"; "googleOauthResponse"; "authenticateUser"]
  | azure_callback_post => ["bad params"; "azureOauthResponse"; "authenticateUser"]
  end.

(** The entry that the error translator writes to the log. *)
Definition logged (tag : string) (error : value) : string * value :=
  ("[Err] auth - " ++ tag, error).

(** The customer an entry path resolves for: the one of the verified
    payload on a recheck, none on the other paths. *)
Definition customer (r : route) (request : value) : value :=
  match r with
  | jwt_check_get => own (own (own request "jwtPayload") "data") "cId"
  | _ => VUndef
  end.

(** The credential an entry path hands to the store: the password of a
    login, none on the other paths. *)
Definition credential (r : route) (request : value) : value :=
  match r with
  | root_post => own (own request "body") "password"
  | _ => VUndef
  end.

(** How a run of an entry point from [w] to [w'] ends: with an exception
    and nothing logged; with a failure envelope, logged once under one of
    the tags of the path; or with the envelope of the user that the store
    resolved, around a token signed at the time of the call. *)
Inductive ending {Store} (E : Env Store) (r : route) (request : value)
    (w w' : World Store) : result value -> Prop :=
| ended_thrown e :
    relayLog w' = relayLog w ->
    ending E r request w w' (Throw e)
| ended_failed error tag :
    In tag (failure_tags r) ->
    relayLog w' = logged tag error :: relayLog w ->
    ending E r request w w' (Return (Spec.ReportableError error tag))
| ended_resolved key user :
    storeLog w' = (key, credential r request) :: storeLog w ->
    fst (getUser E (store w) key (credential r request)) = Return user ->
    relayLog w' = relayLog w ->
    ending E r request w w'
      (Return (Spec.minted E (customer r request) user VUndef w)).

(** The calls an entry path makes to the token endpoint: none on the login
    and recheck paths; on a callback at most one, to the endpoint of the
    provider, and a run that does not call it does not query the store
    either. *)
Definition exchanges {Store} (r : route) (w w' : World Store) : Prop :=
  match r with
  | root_post | jwt_check_get => httpLog w' = httpLog w
  | google_callback_post =>
      httpLog w' = httpLog w /\ storeLog w' = storeLog w
      \/ exists body,
           httpLog w' = (Spec.token_endpoint Spec.google, body) :: httpLog w
  | azure_callback_post =>
      httpLog w' = httpLog w /\ storeLog w' = storeLog w
      \/ exists body,
           httpLog w' = (Spec.token_endpoint Spec.azure, body) :: httpLog w
  end.

(** What a login with a JSON body is told about its fields: a field that
    is [undefined] is required, a field of another type must be a string. *)
Definition login_complaint (body : value) : option string :=
  match own body "username" with
  | VUndef => Some "username required"
  | VStr _ =>
      match own body "password" with
      | VUndef => Some "password required"
      | VStr _ => None
      | _ => Some "password must be a string"
      end
  | _ => Some "username must be a string"
  end.

End Outcomes.

(** ** Further requests and worlds *)

Module Scenario.

(** What a recheck of Bob's session at time 100 returns. *)
Definition bob_rechecked : value :=
  VObj {[ "jwt" := VStr "C1.bob@x.com.C1.100.1209700.s3cret";
          "serial" := VStr "C1"; "user" := Demo.bob; "redirectUrl" := VUndef ]}.

Definition wrong_login : value := Demo.login (VStr "bob@x.com") (VStr "nope").

Definition passwordless_login : value := Demo.login (VStr "bob@x.com") VUndef.

(** Options as the resolver expects them for a reuse. *)
Definition reuse_options : value :=
  VObj {[ "userEmail" := VStr "Bob@x.com"; "customerId" := VStr "C1";
          "previousJwt" := VStr "prior.token" ]}.

Definition numeric_email : value := VObj {[ "userEmail" := VNum 7 ]}.

(** An exchange that is granted without an identity token. *)
Definition tokenless : Env Demo.Store :=
  Demo.environment (Return (VObj {[ "data" := VObj ∅ ]})).

(** A store that resolves an email to no record. *)
Definition ghosts : Demo.Store := {[ "ghost@x.com" := ("p", VUndef) ]}.

Definition ghost_world : World Demo.Store :=
  {| store := ghosts; clock := 100; relayLog := []; httpLog := []; storeLog := [] |}.

Definition as_ghost : value := VObj {[ "userEmail" := VStr "ghost@x.com" ]}.

(** A store that notes every lookup: the call forgets the password of the
    email it is asked for. *)
Definition noting : Env Demo.Store :=
  {| getUser := fun s email password =>
                  (Demo.lookup_user s email password,
                   <[ email := (EmptyString, VNull) ]> s);
     axios_post := fun _ _ _ => Demo.denied;
     jwt_sign := Demo.toy_sign;
     jwt_decode := Demo.toy_decode;
     lowercase := ascii_lower;
     env := {[ "JWT_SECRET" := "s3cret" ]} |}.

(** The demonstration environment without signing secret. *)
Definition secretless : Env Demo.Store :=
  {| getUser := fun s email password => (Demo.lookup_user s email password, s);
     axios_post := fun _ _ _ => Demo.denied;
     jwt_sign := Demo.toy_sign;
     jwt_decode := Demo.toy_decode;
     lowercase := ascii_lower;
     env := ∅ |}.

End Scenario.

(** ** Proofs *)

Arguments get : simpl nomatch.
Arguments own : simpl never.
Arguments truthy : simpl nomatch.
Arguments template : simpl nomatch.
Arguments nullish : simpl nomatch.
Arguments typeof : simpl nomatch.
Arguments handleError : simpl never.
Arguments authenticateUser : simpl never.
Arguments Spec.ReportableError : simpl never.

(** ** Runs of the resolver and of the error translator *)

Section Runs.

Context {Store : Type} (E : Env Store).
Implicit Types (w : World Store) (v : value).

Lemma get_own v k : nullish v = false -> get v k = Return (own v k).
Proof. unfold get. by intros ->. Qed.

Lemma get_nullish v k : nullish v = true -> get v k = Throw (cannot_read v k).
Proof. unfold get. by intros ->. Qed.

Lemma own_not_nullish v k : nullish (own v k) = false -> nullish v = false.
Proof. by destruct v. Qed.

Lemma truthy_not_nullish v : truthy v = true -> nullish v = false.
Proof. by destruct v. Qed.

Lemma toString_truthy v : truthy v = true -> toString v = Return (VStr (template v)).
Proof. unfold toString. by intros ->%truthy_not_nullish. Qed.

Lemma toLowerCase_Return v email :
  toLowerCase (lowercase E) v = Return email ->
  exists u, v = VStr u /\ email = lowercase E u.
Proof. destruct v; try discriminate. intros [= <-]. eauto. Qed.

Lemma handleError_run error type w :
  handleError error type w
  = (Return (Spec.ReportableError error type),
     log_error ("[Err] auth - " ++ type) error w).
Proof.
  unfold handleError, Spec.ReportableError, Spec.provider_payload,
    bind, lift, ret, RelayLog_error.
  destruct (truthy error) eqn:He; cbn; [|by rewrite He].
  rewrite (get_own error) by by apply truthy_not_nullish.
  destruct (truthy (own error "response")) eqn:Hr; cbn; [|by rewrite Hr].
  rewrite !(get_own (own error "response")) by by apply truthy_not_nullish.
  destruct (truthy (own (own error "response") "data")) eqn:Hd; cbn; [|done].
  rewrite !get_own by by apply truthy_not_nullish.
  destruct (truthy (own _ "error_description")); cbn; [done|].
  by rewrite toString_truthy.
Qed.

Lemma ReportableError_type error type :
  own (Spec.ReportableError error type) "type" = VStr type.
Proof.
  unfold Spec.ReportableError, own.
  destruct (Spec.provider_payload error); by simplify_map_eq.
Qed.

Lemma ReportableError_redirectUrl error type :
  own (Spec.ReportableError error type) "redirectUrl" = VUndef.
Proof.
  unfold Spec.ReportableError, own.
  destruct (Spec.provider_payload error); by simplify_map_eq.
Qed.

Lemma ReportableError_text message type :
  Spec.ReportableError (VStr message) type
  = VObj {[ "error" := VStr message; "type" := VStr type ]}.
Proof.
  unfold Spec.ReportableError, Spec.provider_payload.
  replace (truthy (own (VStr message) "response")) with false by done.
  by rewrite andb_false_r.
Qed.

Lemma authenticateUser_run options w :
  nullish options = false ->
  authenticateUser E options w =
    match toLowerCase (lowercase E) (own options "userEmail") with
    | Throw e =>
        (Return (Spec.ReportableError e "authenticateUser"),
         log_error "[Err] auth - authenticateUser" e w)
    | Return email =>
        let password := own options "password" in
        let w1 := after_query E email password w in
        match fst (getUser E (store w) email password) with
        | Throw e =>
            (Return (Spec.ReportableError e "authenticateUser"),
             log_error "[Err] auth - authenticateUser" e w1)
        | Return user =>
            if truthy (own options "previousJwt") then
              (Return (VObj {[ "jwt" := own options "previousJwt";
                               "serial" := own options "customerId";
                               "user" := user;
                               "redirectUrl" := own options "redirectUrl" ]}), w1)
            else if nullish user then (Throw (cannot_read user "email"), w1)
            else (Spec.signed E
                    (Return (Spec.minted E (own options "customerId") user
                               (own options "redirectUrl") w)), w1)
        end
    end.
Proof.
  intros Ho.
  unfold authenticateUser, try_or_return, bind, lift, ret, users_getUser, sign.
  rewrite !get_own by done.
  destruct (toLowerCase _ _) as [email|e]; cbn; [|by rewrite handleError_run].
  destruct (fst (getUser _ _ _ _)) as [user|e]; cbn; [|by rewrite handleError_run].
  destruct (truthy (own options "previousJwt")); cbn; [done|].
  destruct (nullish user) eqn:Hu.
  - by rewrite get_nullish.
  - rewrite !get_own by done. cbn. unfold Spec.signed.
    by destruct (truthy (process_env E "JWT_SECRET")).
Qed.

Lemma own_defined v k s : own v k = VStr s -> nullish v = false.
Proof. by destruct v. Qed.

Lemma defined_not_nullish v : typeof_is v "undefined" = false -> v <> VNull -> nullish v = false.
Proof. by destruct v. Qed.

Lemma not_nullish_defined v : nullish v = false -> typeof_is v "undefined" = false.
Proof. by destruct v. Qed.

Lemma own_login_options a b c k :
  own (VObj {[ "userEmail" := a; "password" := b; "jwt" := c ]}) k
  = if String.eqb k "userEmail" then a
    else if String.eqb k "password" then b
    else if String.eqb k "jwt" then c else VUndef.
Proof.
  unfold own.
  repeat (case String.eqb_spec; [intros ->; by simplify_map_eq|intros ?]).
  by simplify_map_eq.
Qed.

Lemma own_recheck_options a b c k :
  own (VObj {[ "userEmail" := a; "customerId" := b; "jwt" := c ]}) k
  = if String.eqb k "userEmail" then a
    else if String.eqb k "customerId" then b
    else if String.eqb k "jwt" then c else VUndef.
Proof.
  unfold own.
  repeat (case String.eqb_spec; [intros ->; by simplify_map_eq|intros ?]).
  by simplify_map_eq.
Qed.

Lemma own_oauth_options a k :
  own (VObj {[ "userEmail" := a ]}) k
  = if String.eqb k "userEmail" then a else VUndef.
Proof.
  unfold own.
  repeat (case String.eqb_spec; [intros ->; by simplify_map_eq|intros ?]).
  by simplify_map_eq.
Qed.

Lemma authenticateUser_nullish options w :
  nullish options = true ->
  authenticateUser E options w = (Throw (cannot_read options "userEmail"), w).
Proof.
  intros Ho. unfold authenticateUser, bind, lift. by rewrite get_nullish.
Qed.

Lemma authenticateUser_query options u w :
  own options "userEmail" = VStr u ->
  storeLog (snd (authenticateUser E options w))
  = (lowercase E u, own options "password") :: storeLog w.
Proof.
  intros Hu. rewrite authenticateUser_run by by eapply own_defined.
  rewrite Hu. cbn.
  destruct (fst (getUser _ _ _ _)) as [user|e]; cbn; [|done].
  destruct (truthy (own options "previousJwt")); [done|]. by destruct (nullish user).
Qed.

Lemma authenticateUser_returns options w :
  nullish options = false ->
  Spec.resolves_records E (store w) ->
  truthy (process_env E "JWT_SECRET") = true ->
  exists v, fst (authenticateUser E options w) = Return v.
Proof.
  intros Ho Hrec Hsecret. rewrite authenticateUser_run by done.
  destruct (toLowerCase _ _) as [email|e]; cbn; [|by eauto].
  destruct (fst (getUser _ _ _ _)) as [user|e] eqn:Hg; cbn; [|by eauto].
  destruct (truthy (own options "previousJwt")); [by eauto|].
  rewrite (Hrec _ _ _ Hg). unfold Spec.signed. rewrite Hsecret. by eauto.
Qed.


(** The resolver leaves the clock and the HTTP trace alone, and queries the
    store at most once, by a lower-cased key; what it returns has the
    [redirectUrl] of the options, or none. *)
Lemma authenticateUser_frame options w :
  clock (snd (authenticateUser E options w)) = clock w
  /\ httpLog (snd (authenticateUser E options w)) = httpLog w
  /\ Spec.lowercase_query E (storeLog w)
       (storeLog (snd (authenticateUser E options w)))
  /\ forall v, fst (authenticateUser E options w) = Return v ->
       Spec.is_ReportableError v /\ own v "redirectUrl" = VUndef
       \/ Spec.is_AuthResult v /\ own v "redirectUrl" = own options "redirectUrl".
Proof.
  unfold Spec.lowercase_query.
  destruct (nullish options) eqn:Ho.
  { rewrite authenticateUser_nullish by done. cbn. by repeat split; auto. }
  rewrite authenticateUser_run by done.
  assert (Herr : forall e v, Return (Spec.ReportableError e "authenticateUser") = Return v ->
    Spec.is_ReportableError v /\ own v "redirectUrl" = VUndef
    \/ Spec.is_AuthResult v /\ own v "redirectUrl" = own options "redirectUrl").
  { intros e v [= <-]. left. split; [by eexists _, _|].
    apply ReportableError_redirectUrl. }
  destruct (toLowerCase _ _) as [email|e] eqn:Hl; cbn; [|by repeat split; eauto].
  apply toLowerCase_Return in Hl as (u & _ & ->).
  destruct (fst (getUser _ _ _ _)) as [user|e]; cbn; [|by repeat split; eauto].
  destruct (truthy (own options "previousJwt")); cbn.
  { repeat split; eauto. intros v [= <-]. right. split; [by eexists _, _, _, _|].
    unfold own at 1. by simplify_map_eq. }
  destruct (nullish user); cbn; repeat split; eauto; try done.
  unfold Spec.signed. destruct (truthy (process_env E "JWT_SECRET")); [|done].
  intros v [= <-]. right. split; [by eexists _, _, _, _|].
  unfold Spec.minted, own at 1. by simplify_map_eq.
Qed.

End Runs.

(** Stepping through a handler: resolve a property read; open a handler. *)
Ltac read v k :=
  let H := fresh "Hnull" in
  destruct (nullish v) eqn:H;
  [ rewrite (get_nullish v k H) | rewrite (get_own v k H) ]; cbn.

Ltac enter :=
  cbn [routes Spec.callback];
  unfold authChallenge, jwtCheck, googleOauthCallback, azureOauthCallback,
    try_or_return, http_post, bind, lift, ret; cbn.

Section Routes.

Context {Store : Type} (E : Env Store).
Implicit Types (w : World Store) (v : value).

Lemma is_object_checks v :
  typeof_isnt v "object" || negb (truthy v) = negb (Spec.is_object v).
Proof. by destruct v. Qed.

(** The login handler, with every property read resolved. *)
Lemma authChallenge_run request w :
  authChallenge E request w =
    if typeof_is request "undefined" then
      handleError (VStr "request must be defined") "bad params" w
    else if nullish request then (Throw (cannot_read request "body"), w)
    else
      let body := own request "body" in
      let username := own body "username" in
      let password := own body "password" in
      let headers := own request "normalizedHeaders" in
      if negb (Spec.is_object body) then
        handleError (VStr "jsonBody required") "bad params" w
      else if typeof_is username "undefined" then
        handleError (VStr "username required") "bad params" w
      else if typeof_isnt username "string" then
        handleError (VStr "username must be a string") "bad params" w
      else if typeof_is password "undefined" then
        handleError (VStr "password required") "bad params" w
      else if typeof_isnt password "string" then
        handleError (VStr "password must be a string") "bad params" w
      else if nullish headers then (Throw (cannot_read headers "jwt"), w)
      else authenticateUser E (VObj {[ "userEmail" := username;
                                       "password" := password;
                                       "jwt" := own headers "jwt" ]}) w.
Proof.
  enter. destruct (typeof_is request "undefined"); [done|].
  read request "body"; [done|]. rewrite is_object_checks.
  destruct (Spec.is_object (own request "body")) eqn:Hb; cbn; [|done].
  assert (nullish (own request "body") = false) by by destruct (own request "body").
  rewrite !get_own by done. cbn.
  repeat (match goal with |- context [if ?b then _ else _] => destruct b end;
          cbn; [done|]).
  read (own request "normalizedHeaders") "jwt"; done.
Qed.

(** The recheck handler, with every property read resolved. *)
Lemma jwtCheck_run request w :
  jwtCheck E request w =
    let payload := own request "jwtPayload" in
    let data := own payload "data" in
    let headers := own request "normalizedHeaders" in
    if nullish request then (Throw (cannot_read request "jwtPayload"), w)
    else if nullish payload then (Throw (cannot_read payload "data"), w)
    else if nullish data then (Throw (cannot_read data "uEmail"), w)
    else if nullish headers then (Throw (cannot_read headers "jwt"), w)
    else authenticateUser E (VObj {[ "userEmail" := own data "uEmail";
                                     "customerId" := own data "cId";
                                     "jwt" := own headers "jwt" ]}) w.
Proof.
  enter. read request "jwtPayload"; [done|].
  read (own request "jwtPayload") "data"; [done|].
  read (own (own request "jwtPayload") "data") "uEmail"; [done|].
  rewrite !get_own by done. cbn.
  read (own request "normalizedHeaders") "jwt"; done.
Qed.

(** An OAuth callback, with every property read resolved. *)
Lemma oauth_run p request w :
  routes E (Spec.callback p) request w =
    let body := own request "body" in
    let code := own body "code" in
    let redirect_url := own body "redirect_url" in
    let url := Spec.token_endpoint p in
    let form := Spec.exchange_form E p (template code) (template redirect_url) in
    let w1 := log_http url form w in
    if typeof_is request "undefined" then
      handleError (VStr "request must be defined") "bad params" w
    else if nullish request then (Throw (cannot_read request "body"), w)
    else if nullish body then (Throw (cannot_read body "code"), w)
    else if typeof_isnt code "string" then
      handleError (VStr "code must be a string") "bad params" w
    else if typeof_isnt redirect_url "string" then
      handleError (VStr "redirect_url must be a string") "bad params" w
    else
      match axios_post E url form form_urlencoded with
      | Throw error => handleError error (Spec.provider_tag p) w1
      | Return response =>
          let data := own response "data" in
          let decoded := jwt_decode E (own data "id_token") in
          if nullish response then (Throw (cannot_read response "data"), w1)
          else if nullish data then (Throw (cannot_read data "id_token"), w1)
          else if nullish decoded then
            (Throw (cannot_read decoded (Spec.identity_claim p)), w1)
          else authenticateUser E
                 (VObj {[ "userEmail" := own decoded (Spec.identity_claim p) ]}) w1
      end.
Proof.
  destruct p; enter.
  all: destruct (typeof_is request "undefined"); [done|].
  all: read request "body"; [done|].
  all: read (own request "body") "code"; [done|].
  all: destruct (typeof_isnt _ "string"); cbn; [done|].
  all: rewrite get_own by done; cbn.
  all: destruct (typeof_isnt _ "string"); cbn; [done|].
  all: unfold Spec.exchange_form; cbn.
  all: destruct (axios_post _ _ _ _) as [response|error]; cbn; [|done].
  all: read response "data"; [done|].
  all: read (own response "data") "id_token"; [done|].
  all: match goal with |- context [get ?v ?k] => read v k end; done.
Qed.

(** One lemma for the four handlers. *)
Lemma routes_run r request w :
  routes E r request w =
    match r with
    | root_post => authChallenge E request w
    | jwt_check_get => jwtCheck E request w
    | google_callback_post => routes E (Spec.callback Spec.google) request w
    | azure_callback_post => routes E (Spec.callback Spec.azure) request w
    end.
Proof. by destruct r. Qed.

(** Every entry point leaves the clock alone, queries the store at most
    once, by a lower-cased key, and returns an envelope without
    [redirectUrl]. *)
Lemma routes_frame r request w :
  clock (snd (routes E r request w)) = clock w
  /\ Spec.lowercase_query E (storeLog w) (storeLog (snd (routes E r request w)))
  /\ forall v, fst (routes E r request w) = Return v ->
       own v "redirectUrl" = VUndef
       /\ (Spec.is_AuthResult v \/ Spec.is_ReportableError v).
Proof.
  assert (Herr : forall e t v, Return (Spec.ReportableError e t) = Return v ->
    own v "redirectUrl" = VUndef
    /\ (Spec.is_AuthResult v \/ Spec.is_ReportableError v)).
  { intros e t v [= <-]. split; [apply ReportableError_redirectUrl|].
    right. by eexists _, _. }
  rewrite routes_run.
  destruct r; rewrite ?authChallenge_run, ?jwtCheck_run, ?oauth_run; cbn zeta.
  all: repeat match goal with
         | |- context [if ?b then _ else _] => destruct b
         | |- context [match axios_post ?E ?u ?b ?c with _ => _ end] =>
             destruct (axios_post E u b c)
         end.
  all: rewrite ?handleError_run.
  all: try (split; [done|split; [by left|
             first [by apply Herr | by intros ? [=]]]]).
  all: match goal with
       | |- context [authenticateUser E ?o ?w0] =>
           destruct (authenticateUser_frame E o w0) as (Hc & _ & Hq & Hv);
           split; [by rewrite Hc|split; [exact Hq|]]
       end.
  all: intros res Hr; destruct (Hv res Hr) as [[? ?]|[? Ho]]; [by auto|].
  all: split; [|by auto]; rewrite Ho; unfold own; by simplify_map_eq.
Qed.

End Routes.

(** ** The properties of the specification *)

Section Claims.

Context {Store : Type} (E : Env Store).
Implicit Types (w : World Store) (v : value).

(** C6.  For every error value and stage tag, the error translator logs
    the error and returns [{error: payload.error, message:
    payload.error_description or the error's string form, type}] when the
    error carries a provider payload [error.response.data], and
    [{error, type}] otherwise. *)
Theorem handleError_shape error type w :
  handleError error type w =
    (Return
       match Spec.provider_payload error with
       | Some payload =>
           VObj {[ "error" := own payload "error";
                   "message" := if truthy (own payload "error_description")
                                then own payload "error_description"
                                else VStr (template error);
                   "type" := VStr type ]}
       | None => VObj {[ "error" := error; "type" := VStr type ]}
       end,
     log_error ("[Err] auth - " ++ type) error w).
Proof. apply handleError_run. Qed.


(** C10.  In every successful AuthResult returned by any of the four
    entry paths the [redirectUrl] field is [undefined]. *)
Theorem redirectUrl_is_undefined r request w v :
  fst (routes E r request w) = Return v ->
  Spec.is_AuthResult v ->
  own v "redirectUrl" = VUndef
  /\ exists token serial user,
       v = VObj {[ "jwt" := token; "serial" := serial; "user" := user;
                   "redirectUrl" := VUndef ]}.
Proof.
  intros Hrun (token & serial & user & redirectUrl & ->).
  destruct (routes_frame E r request w) as (_ & _ & Hv).
  destruct (Hv _ Hrun) as [Hredirect _]. split; [done|].
  exists token, serial, user.
  unfold own in Hredirect. by simplify_map_eq.
Qed.

(** C2.  On the password path, when the store accepts the username and
    password of the request, the result carries a token that is minted by
    the call: the signature, at the time of the call, of the payload
    [{data: {cId: undefined, uEmail: user.email, u_cId: user.customer_id}}]
    with an expiry of 1,209,600 seconds.  (The signature needs the secret:
    where [JWT_SECRET] is not set, the call ends with the exception of
    [jwt.sign].) *)
Theorem password_login_mints_token request w username password user :
  Spec.is_object (own request "body") = true ->
  own (own request "body") "username" = VStr username ->
  own (own request "body") "password" = VStr password ->
  nullish (own request "normalizedHeaders") = false ->
  fst (getUser E (store w) (lowercase E username) (VStr password)) = Return user ->
  nullish user = false ->
  fst (routes E root_post request w)
  = Spec.signed E
      (Return (VObj {[ "jwt" :=
                         jwt_sign E (clock w)
                           (VObj {[ "data" :=
                                      VObj {[ "cId" := VUndef;
                                              "uEmail" := own user "email";
                                              "u_cId" := own user "customer_id" ]} ]})
                           (process_env E "JWT_SECRET") 1209600;
                       "serial" := VUndef;
                       "user" := user;
                       "redirectUrl" := VUndef ]}))
  /\ JWT_VALID_SECONDS = 1209600%Z.
Proof.
  intros Hb Hu Hp Hh Hs Hn. split; [|done].
  assert (Hr : nullish request = false) by by eapply own_not_nullish.
  rewrite routes_run, authChallenge_run.
  rewrite (not_nullish_defined _ Hr), Hr. cbn zeta.
  rewrite Hb, Hu, Hp, Hh. cbn.
  rewrite authenticateUser_run by done.
  rewrite !own_login_options. cbn. by rewrite Hs, Hn.
Qed.

(** C3 (amended).  On the password path and on the two OAuth paths, a
    request with a missing or wrong-typed required input, where the path
    validates it (a login that is not [null]; a callback that is
    [undefined] or has a body), gets a bad-parameter error whose text
    starts with the name of the first offending input, and neither the
    token endpoint nor the user store is called. *)
Theorem invalid_fields_are_bad_parameters r request w field :
  Spec.validated r request ->
  Spec.first_offending r request = Some field ->
  Spec.bad_parameter field (fst (routes E r request w))
  /\ httpLog (snd (routes E r request w)) = httpLog w
  /\ storeLog (snd (routes E r request w)) = storeLog w.
Proof.
  assert (Hbad : forall name message,
    String.prefix name message = true ->
    Spec.bad_parameter name (fst (handleError (VStr message) "bad params" w))
    /\ httpLog (snd (handleError (VStr message) "bad params" w)) = httpLog w
    /\ storeLog (snd (handleError (VStr message) "bad params" w)) = storeLog w).
  { intros name message Hname. rewrite handleError_run, ReportableError_text.
    split; [by exists message|done]. }
  intros Hv Hf. unfold Spec.first_offending in Hf. rewrite routes_run.
  destruct r; cbn in Hv; try done.
  - rewrite authChallenge_run.
    destruct (typeof_is request "undefined") eqn:Hdef.
    { injection Hf as <-. by apply Hbad. }
    rewrite (defined_not_nullish _ Hdef Hv). cbn zeta.
    destruct (Spec.is_object (own request "body")); cbn.
    2:{ injection Hf as <-. by apply Hbad. }
    unfold Spec.missing_or_wrong in Hf. cbn in Hf.
    destruct (own (own request "body") "username");
      try (injection Hf as <-; by apply Hbad).
    destruct (own (own request "body") "password");
      try (injection Hf as <-; by apply Hbad).
    done.
  - rewrite oauth_run. cbn zeta.
    destruct (typeof_is request "undefined") eqn:Hdef.
    { injection Hf as <-. by apply Hbad. }
    destruct Hv as [-> | Hbody]; [done|].
    rewrite (own_not_nullish _ _ Hbody), Hbody.
    unfold Spec.missing_or_wrong in Hf. cbn in Hf.
    destruct (typeof_isnt (own (own request "body") "code") "string").
    { injection Hf as <-. by apply Hbad. }
    destruct (typeof_isnt (own (own request "body") "redirect_url") "string").
    { injection Hf as <-. by apply Hbad. }
    done.
  - rewrite oauth_run. cbn zeta.
    destruct (typeof_is request "undefined") eqn:Hdef.
    { injection Hf as <-. by apply Hbad. }
    destruct Hv as [-> | Hbody]; [done|].
    rewrite (own_not_nullish _ _ Hbody), Hbody.
    unfold Spec.missing_or_wrong in Hf. cbn in Hf.
    destruct (typeof_isnt (own (own request "body") "code") "string").
    { injection Hf as <-. by apply Hbad. }
    destruct (typeof_isnt (own (own request "body") "redirect_url") "string").
    { injection Hf as <-. by apply Hbad. }
    done.
Qed.

(** C4 (amended).  Each entry point returns a value, an AuthResult or a
    ReportableError, and throws nothing, on every request that carries
    the context its path relies on (the normalized headers of a valid
    login; the verified token payload and the headers of a recheck; the
    body of a callback), provided the store resolves to user records,
    every granted exchange carries an identity token that decodes, and the
    signing secret [JWT_SECRET] is set. *)
Theorem entry_points_return r request w :
  Spec.resolves_records E (store w) ->
  Spec.grants_identity E ->
  truthy (process_env E "JWT_SECRET") = true ->
  Spec.in_context r request ->
  Spec.returns_normally (fst (routes E r request w)).
Proof.
  intros Hrec Hgrant Hsecret Hctx.
  assert (Hret : exists v, fst (routes E r request w) = Return v).
  { assert (Herr : forall e t w0, exists v, fst (handleError e t w0) = Return v).
    { intros e t w0. rewrite handleError_run. by eauto. }
    rewrite routes_run. destruct r; cbn in Hctx.
    - destruct Hctx as [Hnull Hheaders]. rewrite authChallenge_run.
      unfold Spec.first_offending, Spec.missing_or_wrong in Hheaders.
      destruct (typeof_is request "undefined") eqn:Hdef; [done|].
      rewrite (defined_not_nullish _ Hdef Hnull). cbn zeta.
      destruct (Spec.is_object (own request "body")); cbn; [|done].
      cbn in Hheaders.
      destruct (typeof_is (own (own request "body") "username") "undefined"); [done|].
      destruct (typeof_isnt (own (own request "body") "username") "string"); [done|].
      destruct (typeof_is (own (own request "body") "password") "undefined"); [done|].
      destruct (typeof_isnt (own (own request "body") "password") "string"); [done|].
      rewrite Hheaders by done. by apply authenticateUser_returns.
    - destruct Hctx as [Hdata Hheaders]. rewrite jwtCheck_run. cbn zeta.
      assert (Hpayload := own_not_nullish _ _ Hdata).
      rewrite (own_not_nullish _ _ Hpayload), Hpayload, Hdata, Hheaders.
      by apply authenticateUser_returns.
    - rewrite oauth_run. cbn zeta.
      destruct (typeof_is request "undefined") eqn:Hdef; [done|].
      destruct Hctx as [-> | Hbody]; [done|].
      rewrite (own_not_nullish _ _ Hbody), Hbody.
      destruct (typeof_isnt _ "string"); [done|].
      destruct (typeof_isnt _ "string"); [done|].
      destruct (axios_post _ _ _ _) as [response|e] eqn:Hpost; [|done].
      destruct (Hgrant _ _ _ _ Hpost) as [Hdata Hdecoded].
      rewrite (own_not_nullish _ _ Hdata), Hdata, Hdecoded.
      by apply authenticateUser_returns.
    - rewrite oauth_run. cbn zeta.
      destruct (typeof_is request "undefined") eqn:Hdef; [done|].
      destruct Hctx as [-> | Hbody]; [done|].
      rewrite (own_not_nullish _ _ Hbody), Hbody.
      destruct (typeof_isnt _ "string"); [done|].
      destruct (typeof_isnt _ "string"); [done|].
      destruct (axios_post _ _ _ _) as [response|e] eqn:Hpost; [|done].
      destruct (Hgrant _ _ _ _ Hpost) as [Hdata Hdecoded].
      rewrite (own_not_nullish _ _ Hdata), Hdata, Hdecoded.
      by apply authenticateUser_returns. }
  destruct Hret as [v Hv]. exists v.
  destruct (routes_frame E r request w) as (_ & _ & Hshape).
  split; [done|by apply Hshape].
Qed.

(** C5.  On each OAuth path, for a request with string [code] and
    [redirect_url]: when the code exchange fails, the result is the
    ReportableError of that failure tagged with the provider's name and
    the user store is not queried; when the exchange succeeds and the
    store lookup of the asserted identity fails, the result is the
    ReportableError of that failure tagged [authenticateUser]. *)
Theorem oauth_failures_are_tagged p request w code redirect_url :
  own (own request "body") "code" = VStr code ->
  own (own request "body") "redirect_url" = VStr redirect_url ->
  (forall error,
      axios_post E (Spec.token_endpoint p)
        (Spec.exchange_form E p code redirect_url) form_urlencoded
      = Throw error ->
      fst (routes E (Spec.callback p) request w)
      = Return (Spec.ReportableError error (Spec.provider_tag p))
      /\ own (Spec.ReportableError error (Spec.provider_tag p)) "type"
         = VStr (Spec.provider_tag p)
      /\ storeLog (snd (routes E (Spec.callback p) request w)) = storeLog w)
  /\ (forall response email error,
      axios_post E (Spec.token_endpoint p)
        (Spec.exchange_form E p code redirect_url) form_urlencoded
      = Return response ->
      nullish (own response "data") = false ->
      own (jwt_decode E (own (own response "data") "id_token"))
          (Spec.identity_claim p) = VStr email ->
      fst (getUser E (store w) (lowercase E email) VUndef) = Throw error ->
      fst (routes E (Spec.callback p) request w)
      = Return (Spec.ReportableError error "authenticateUser")
      /\ own (Spec.ReportableError error "authenticateUser") "type"
         = VStr "authenticateUser").
Proof.
  intros Hcode Hredirect.
  assert (Hbody := own_defined _ _ _ Hcode).
  assert (Hrequest := own_not_nullish _ _ Hbody).
  rewrite oauth_run. cbn zeta.
  rewrite (not_nullish_defined _ Hrequest), Hrequest, Hbody, Hcode, Hredirect.
  cbn. split.
  - intros error ->. rewrite handleError_run. cbn.
    split; [done|]. split; [apply ReportableError_type|done].
  - intros response email error -> Hdata Hclaim Hstore.
    rewrite (own_not_nullish _ _ Hdata), Hdata, (own_defined _ _ _ Hclaim).
    rewrite authenticateUser_run by done.
    rewrite !own_oauth_options. cbn. rewrite Hclaim. cbn. rewrite Hstore.
    split; [done|apply ReportableError_type].
Qed.


End Claims.

(** ** The recheck path signs again *)

(** The recheck handler never reads the token it carries forward: whenever
    the identity resolves, the token of the result is a new signature. *)
Lemma jwtCheck_ignores_prior_token {Store} (E : Env Store) request w uEmail user :
  nullish (own request "normalizedHeaders") = false ->
  own (own (own request "jwtPayload") "data") "uEmail" = VStr uEmail ->
  fst (getUser E (store w) (lowercase E uEmail) VUndef) = Return user ->
  nullish user = false ->
  fst (routes E jwt_check_get request w)
  = Spec.signed E
      (Return (Spec.minted E (own (own (own request "jwtPayload") "data") "cId")
                 user VUndef w)).
Proof.
  intros Hheaders Hemail Hstore Huser.
  assert (Hdata := own_defined _ _ _ Hemail).
  assert (Hpayload := own_not_nullish _ _ Hdata).
  rewrite routes_run, jwtCheck_run. cbn zeta.
  rewrite (own_not_nullish _ _ Hpayload), Hpayload, Hdata, Hheaders.
  rewrite authenticateUser_run by done.
  rewrite !own_recheck_options. cbn. rewrite Hemail. cbn.
  by rewrite Hstore, Huser.
Qed.

(** C1 (the code departs from it).  A recheck of Bob's session with the
    prior token [prior.token] returns a token signed at the time of the
    call, not the prior token. *)
Theorem jwtCheck_signs_again :
  fst (routes Demo.refusing jwt_check_get Demo.bob_recheck (Demo.world 100))
  = Return (VObj {[ "jwt" := VStr "C1.bob@x.com.C1.100.1209700.s3cret";
                    "serial" := VStr "C1"; "user" := Demo.bob;
                    "redirectUrl" := VUndef ]})
  /\ Spec.token
       (fst (routes Demo.refusing jwt_check_get Demo.bob_recheck (Demo.world 100)))
     <> own (own Demo.bob_recheck "normalizedHeaders") "jwt".
Proof. split; [by vm_compute|]. vm_compute. discriminate. Qed.

(** C8 (the code departs from it).  Two rechecks of Bob's session with the
    same prior token, one second apart, return two different tokens. *)
Theorem jwtCheck_twice_returns_two_tokens :
  Spec.token
    (fst (routes Demo.refusing jwt_check_get Demo.bob_recheck (Demo.world 100)))
  = VStr "C1.bob@x.com.C1.100.1209700.s3cret"
  /\ Spec.token
       (fst (routes Demo.refusing jwt_check_get Demo.bob_recheck
               (Demo.tick
                  (snd (routes Demo.refusing jwt_check_get Demo.bob_recheck
                          (Demo.world 100))))))
     = VStr "C1.bob@x.com.C1.101.1209701.s3cret"
  /\ Spec.token
       (fst (routes Demo.refusing jwt_check_get Demo.bob_recheck (Demo.world 100)))
     <> Spec.token
          (fst (routes Demo.refusing jwt_check_get Demo.bob_recheck
                  (Demo.tick
                     (snd (routes Demo.refusing jwt_check_get Demo.bob_recheck
                             (Demo.world 100)))))).
Proof. repeat split; [by vm_compute..|]. vm_compute. discriminate. Qed.

(** ** Counterexamples to the claims as stated *)

(** C3 as stated fails on the recheck path: a verified payload without
    [uEmail] gets an error tagged [authenticateUser], not a bad-parameter
    error. *)
Lemma recheck_without_email_is_not_bad_parameter :
  Spec.first_offending jwt_check_get Demo.nameless_recheck = Some "uEmail"
  /\ fst (routes Demo.refusing jwt_check_get Demo.nameless_recheck (Demo.world 100))
     = Return (VObj {[ "error" := cannot_read VUndef "toLowerCase";
                       "type" := VStr "authenticateUser" ]})
  /\ ~ Spec.bad_parameter "uEmail"
         (fst (routes Demo.refusing jwt_check_get Demo.nameless_recheck
                 (Demo.world 100))).
Proof.
  repeat split; [by vm_compute..|].
  intros (message & Hrun & _).
  apply (f_equal (fun outcome => match outcome with
                                 | Return v => own v "type"
                                 | Throw _ => VUndef
                                 end)) in Hrun.
  vm_compute in Hrun. discriminate.
Qed.

(** C4 as stated fails: a recheck without a verified payload throws, and so
    does an OAuth callback without a body. *)
Lemma entry_points_can_throw :
  fst (routes Demo.refusing jwt_check_get (VObj ∅) (Demo.world 100))
  = Throw (cannot_read VUndef "data")
  /\ ~ Spec.returns_normally
         (fst (routes Demo.refusing jwt_check_get (VObj ∅) (Demo.world 100)))
  /\ fst (routes Demo.refusing google_callback_post (VObj ∅) (Demo.world 100))
     = Throw (cannot_read VUndef "code")
  /\ ~ Spec.returns_normally
         (fst (routes Demo.refusing google_callback_post (VObj ∅) (Demo.world 100))).
Proof.
  repeat split; try by vm_compute.
  all: intros (v & Hrun & _); vm_compute in Hrun; discriminate.
Qed.

(** ** The theorems at concrete requests *)

(** The demonstration store holds user records only. *)
Lemma Demo_resolves_records (E : Env Demo.Store) :
  (forall s email password,
      fst (getUser E s email password) = Demo.lookup_user s email password) ->
  Spec.resolves_records E Demo.users.
Proof.
  intros HE email password user. rewrite HE. unfold Demo.lookup_user, Demo.users.
  destruct (decide (email = "bob@x.com")) as [->|Hne].
  - rewrite lookup_singleton_eq. destruct (Demo.password_ok _ _); [|done].
    by intros [= <-].
  - by rewrite lookup_singleton_ne.
Qed.


(** With a lookup that writes, the resolver passes the write on. *)
Lemma a_writing_lookup_changes_the_store :
  store (snd (authenticateUser Scenario.noting Demo.as_alice (Demo.world 100)))
  <> store (Demo.world 100).
Proof.
  intros Heq.
  apply (f_equal (fun s : Demo.Store => s !! "alice@example.com")) in Heq.
  vm_compute in Heq. discriminate.
Qed.

(** Without signing secret, the login of Bob ends with the exception of
    [jwt.sign]. *)
Lemma login_without_secret_throws :
  fst (routes Scenario.secretless root_post Demo.bob_login (Demo.world 100))
  = Throw secret_missing.
Proof. by vm_compute. Qed.

(** Bob logs in with his password and gets a session signed at time 100. *)
Lemma password_login_mints_token_witness :
  fst (routes Demo.refusing root_post Demo.bob_login (Demo.world 100))
  = Return Demo.bob_session.
Proof.
  refine (proj1 (password_login_mints_token Demo.refusing Demo.bob_login
                   (Demo.world 100) "bob@x.com" "p1" Demo.bob _ _ _ _ _ _)).
  all: vm_compute; reflexivity.
Defined.

(** A Google callback whose code is a number is refused, without any call. *)
Lemma invalid_fields_are_bad_parameters_witness :
  Spec.bad_parameter "code"
    (fst (routes Demo.refusing google_callback_post Demo.codeless_callback
            (Demo.world 100)))
  /\ httpLog (snd (routes Demo.refusing google_callback_post Demo.codeless_callback
                     (Demo.world 100))) = []
  /\ storeLog (snd (routes Demo.refusing google_callback_post Demo.codeless_callback
                      (Demo.world 100))) = [].
Proof.
  apply (invalid_fields_are_bad_parameters Demo.refusing google_callback_post
           Demo.codeless_callback (Demo.world 100) "code").
  - right. vm_compute. reflexivity.
  - vm_compute. reflexivity.
Defined.

(** An Azure callback that is granted for Bob returns normally. *)
Lemma entry_points_return_witness :
  Spec.returns_normally
    (fst (routes (Demo.granting "Bob@X.com") azure_callback_post Demo.a_callback
            (Demo.world 100))).
Proof.
  apply (entry_points_return (Demo.granting "Bob@X.com") azure_callback_post
           Demo.a_callback (Demo.world 100)).
  - apply Demo_resolves_records. reflexivity.
  - intros url body config response [= <-]. vm_compute. split; reflexivity.
  - vm_compute. reflexivity.
  - right. vm_compute. reflexivity.
Defined.

(** A refused Google exchange, and a granted Azure exchange for an unknown
    user. *)
Lemma oauth_failures_are_tagged_witness :
  fst (routes Demo.refusing google_callback_post Demo.a_callback (Demo.world 100))
  = Return (VObj {[ "error" := VStr "invalid_grant";
                    "message" := VStr "Bad Request";
                    "type" := VStr "googleOauthResponse" ]})
  /\ storeLog (snd (routes Demo.refusing google_callback_post Demo.a_callback
                      (Demo.world 100))) = []
  /\ fst (routes (Demo.granting "Eve@X.com") azure_callback_post Demo.a_callback
            (Demo.world 100))
     = Return (VObj {[ "error" := Demo.user_not_found;
                       "type" := VStr "authenticateUser" ]}).
Proof.
  split; [|split].
  - refine (proj1 (proj1 (oauth_failures_are_tagged Demo.refusing Spec.google
                            Demo.a_callback (Demo.world 100) "c0de" "https://app/cb"
                            _ _) Demo.refusal _)); vm_compute; reflexivity.
  - refine (proj2 (proj2 (proj1 (oauth_failures_are_tagged Demo.refusing Spec.google
                            Demo.a_callback (Demo.world 100) "c0de" "https://app/cb"
                            _ _) Demo.refusal _))); vm_compute; reflexivity.
  - refine (proj1 (proj2 (oauth_failures_are_tagged (Demo.granting "Eve@X.com")
                            Spec.azure Demo.a_callback (Demo.world 100) "c0de"
                            "https://app/cb" _ _)
                     (VObj {[ "status" := VNum 200;
                              "data" := VObj {[ "id_token" := VStr "Eve@X.com" ]} ]})
                     "Eve@X.com" Demo.user_not_found _ _ _ _));
      vm_compute; reflexivity.
Defined.


(** The session of Bob has no [redirectUrl]. *)
Lemma redirectUrl_is_undefined_witness :
  own Demo.bob_session "redirectUrl" = VUndef.
Proof.
  refine (proj1 (redirectUrl_is_undefined Demo.refusing root_post Demo.bob_login
                   (Demo.world 100) Demo.bob_session _ _)).
  - vm_compute. reflexivity.
  - exists (VStr "undefined.bob@x.com.C1.100.1209700.s3cret"), VUndef, Demo.bob, VUndef.
    reflexivity.
Defined.

(** ** How the entry points end *)

Section Endings.

Context {Store : Type} (E : Env Store).
Implicit Types (w : World Store) (v : value).

Lemma ReportableError_not_AuthResult error type :
  ~ Spec.is_AuthResult (Spec.ReportableError error type).
Proof.
  intros (token & serial & user & redirectUrl & Heq).
  apply (f_equal (fun v => own v "type")) in Heq.
  rewrite ReportableError_type in Heq.
  unfold own in Heq. by simplify_map_eq.
Qed.

Lemma ReportableError_jwt error type :
  own (Spec.ReportableError error type) "jwt" = VUndef.
Proof.
  unfold Spec.ReportableError, own.
  destruct (Spec.provider_payload error); by simplify_map_eq.
Qed.

Lemma ReportableError_TypeError message type :
  Spec.ReportableError (TypeError message) type
  = VObj {[ "error" := TypeError message; "type" := VStr type ]}.
Proof. done. Qed.

Lemma minted_fields customerId user redirectUrl w :
  own (Spec.minted E customerId user redirectUrl w) "jwt"
  = jwt_sign E (clock w) (Spec.claims customerId user)
      (process_env E "JWT_SECRET") 1209600
  /\ own (Spec.minted E customerId user redirectUrl w) "serial" = customerId
  /\ own (Spec.minted E customerId user redirectUrl w) "user" = user.
Proof. unfold Spec.minted, own. by simplify_map_eq. Qed.

Lemma minted_after_exchange customerId user redirectUrl url body w :
  Spec.minted E customerId user redirectUrl (log_http url body w)
  = Spec.minted E customerId user redirectUrl w.
Proof. done. Qed.

(** The three ways in which the resolver ends on options without a
    previous token. *)
Lemma authenticateUser_ends options w :
  nullish options = false ->
  truthy (own options "previousJwt") = false ->
  (exists e, fst (authenticateUser E options w) = Throw e
     /\ relayLog (snd (authenticateUser E options w)) = relayLog w)
  \/ (exists error,
        fst (authenticateUser E options w)
        = Return (Spec.ReportableError error "authenticateUser")
        /\ relayLog (snd (authenticateUser E options w))
           = Outcomes.logged "authenticateUser" error :: relayLog w)
  \/ (exists u user,
        own options "userEmail" = VStr u
        /\ fst (getUser E (store w) (lowercase E u) (own options "password"))
           = Return user
        /\ authenticateUser E options w
           = (Return (Spec.minted E (own options "customerId") user
                        (own options "redirectUrl") w),
              after_query E (lowercase E u) (own options "password") w)).
Proof.
  intros Ho Hprev. rewrite authenticateUser_run by done. rewrite Hprev.
  destruct (toLowerCase _ _) as [email|e] eqn:Hl; cbn; [|by eauto 6].
  apply toLowerCase_Return in Hl as (u & Hu & ->).
  destruct (fst (getUser _ _ _ _)) as [user|e] eqn:Hg; cbn; [|by eauto 6].
  destruct (nullish user); cbn; [by eauto 6|].
  unfold Spec.signed. destruct (truthy (process_env E "JWT_SECRET")); [|by eauto 6].
  right. right. by exists u, user.
Qed.

(** The store trace of the resolver: one query, by the lower-cased email
    and the password of the options, unless the email is no string. *)
Lemma authenticateUser_trace options w :
  nullish options = false ->
  httpLog (snd (authenticateUser E options w)) = httpLog w
  /\ (storeLog (snd (authenticateUser E options w)) = storeLog w
      \/ exists u, storeLog (snd (authenticateUser E options w))
                   = (lowercase E u, own options "password") :: storeLog w).
Proof.
  intros Ho. split; [apply authenticateUser_frame|].
  destruct (own options "userEmail") eqn:Hu.
  5:{ right. eexists. by apply authenticateUser_query. }
  all: left; by rewrite authenticateUser_run, Hu.
Qed.

Lemma own_options_previousJwt a b c d e f :
  truthy (own (VObj {[ "userEmail" := a; "password" := b; "jwt" := c ]}) "previousJwt") = false
  /\ truthy (own (VObj {[ "userEmail" := d; "customerId" := e; "jwt" := f ]}) "previousJwt") = false
  /\ truthy (own (VObj {[ "userEmail" := a ]}) "previousJwt") = false.
Proof. by rewrite own_login_options, own_recheck_options, own_oauth_options. Qed.

(** Every run of an entry point ends in one of the three ways. *)
Lemma routes_ending r request w :
  Outcomes.ending E r request w
    (snd (routes E r request w)) (fst (routes E r request w)).
Proof.
  rewrite routes_run.
  destruct r; rewrite ?authChallenge_run, ?jwtCheck_run, ?oauth_run; cbn zeta.
  all: repeat match goal with
         | |- context [if ?b then _ else _] => destruct b
         | |- context [match axios_post ?E ?u ?b ?c with _ => _ end] =>
             destruct (axios_post E u b c)
         end.
  all: rewrite ?handleError_run; cbn [fst snd].
  all: try (by apply Outcomes.ended_thrown).
  all: try (apply Outcomes.ended_failed; [cbn; by auto | done]).
  all: match goal with
       | |- context [authenticateUser E ?o ?w0] =>
           destruct (authenticateUser_ends o w0) as
             [(e & -> & Hlog) | [(error & -> & Hlog) | (u & user & Hu & Hg & ->)]];
           [ done
           | by rewrite ?own_login_options, ?own_recheck_options, ?own_oauth_options
           | by apply Outcomes.ended_thrown
           | apply Outcomes.ended_failed; [cbn; by auto | done]
           | ]
       end.
  all: rewrite ?own_login_options, ?own_recheck_options, ?own_oauth_options in *.
  all: rewrite ?minted_after_exchange; cbn in Hg |- *.
  all: by eapply Outcomes.ended_resolved.
Qed.

(** The calls of every run: to the token endpoint as the path allows, and
    at most one query of the store, by a lower-cased key and with the
    credential of the path. *)
Lemma routes_traces r request w :
  Outcomes.exchanges r w (snd (routes E r request w))
  /\ (storeLog (snd (routes E r request w)) = storeLog w
      \/ exists u, storeLog (snd (routes E r request w))
                   = (lowercase E u, Outcomes.credential r request) :: storeLog w).
Proof.
  rewrite routes_run.
  destruct r; rewrite ?authChallenge_run, ?jwtCheck_run, ?oauth_run; cbn zeta.
  all: repeat match goal with
         | |- context [if ?b then _ else _] => destruct b
         | |- context [match axios_post ?E ?u ?b ?c with _ => _ end] =>
             destruct (axios_post E u b c)
         end.
  all: rewrite ?handleError_run; cbn [fst snd Outcomes.exchanges].
  all: try (split; [by eauto|by left]).
  all: match goal with
       | |- context [authenticateUser E ?o ?w0] =>
           destruct (authenticateUser_trace o w0) as [Hhttp Hstore]; [done|];
           rewrite ?own_login_options, ?own_recheck_options, ?own_oauth_options
             in Hstore
       end.
  all: split; [by rewrite ?Hhttp; eauto|exact Hstore].
Qed.

End Endings.

(** ** Further properties of the handlers *)

Section Further.

Context {Store : Type} (E : Env Store).
Implicit Types (w : World Store) (v : value).

Lemma routes_success r request w v :
  fst (routes E r request w) = Return v ->
  Spec.is_AuthResult v ->
  exists key user,
    v = Spec.minted E (Outcomes.customer r request) user VUndef w
    /\ storeLog (snd (routes E r request w))
       = (key, Outcomes.credential r request) :: storeLog w
    /\ fst (getUser E (store w) key (Outcomes.credential r request)) = Return user.
Proof.
  intros Hv Hauth. pose proof (routes_ending E r request w) as Hend.
  rewrite Hv in Hend. inversion Hend as [|error tag ? ? Heq|key user ? ? ? Heq]; subst.
  - by destruct (ReportableError_not_AuthResult error tag).
  - by exists key, user.
Qed.

(** X1.  On each OAuth path, a callback with string [code] and
    [redirect_url] whose exchange is granted for an identity that the
    store resolves returns the envelope of that user around a token signed
    at the time of the call, after one call of the endpoint and one query
    of the store by the lower-cased identity, without credential.  (Where
    [JWT_SECRET] is not set, the run ends with the exception of [jwt.sign]
    instead, after the same calls.) *)
Theorem callback_mints_token p request w code redirect_url response email user :
  own (own request "body") "code" = VStr code ->
  own (own request "body") "redirect_url" = VStr redirect_url ->
  axios_post E (Spec.token_endpoint p)
    (Spec.exchange_form E p code redirect_url) form_urlencoded
  = Return response ->
  nullish (own response "data") = false ->
  own (jwt_decode E (own (own response "data") "id_token"))
      (Spec.identity_claim p) = VStr email ->
  fst (getUser E (store w) (lowercase E email) VUndef) = Return user ->
  nullish user = false ->
  routes E (Spec.callback p) request w
  = (Spec.signed E (Return (Spec.minted E VUndef user VUndef w)),
     after_query E (lowercase E email) VUndef
       (log_http (Spec.token_endpoint p)
          (Spec.exchange_form E p code redirect_url) w)).
Proof.
  intros Hcode Hredirect Hpost Hdata Hclaim Hstore Huser.
  assert (Hbody := own_defined _ _ _ Hcode).
  assert (Hrequest := own_not_nullish _ _ Hbody).
  rewrite oauth_run. cbn zeta.
  rewrite (not_nullish_defined _ Hrequest), Hrequest, Hbody, Hcode, Hredirect.
  cbn. rewrite Hpost.
  rewrite (own_not_nullish _ _ Hdata), Hdata, (own_defined _ _ _ Hclaim).
  rewrite authenticateUser_run by done.
  rewrite !own_oauth_options. cbn. rewrite Hclaim. cbn.
  by rewrite Hstore, Huser.
Qed.

(** X2.  Every run of an entry point ends in one of three ways: with an
    exception and nothing logged, with an AuthResult and nothing logged,
    or with a ReportableError that is logged exactly once, under its stage
    tag, which is one of the tags of the path. *)
Theorem failures_are_logged_once r request w :
  (exists e, fst (routes E r request w) = Throw e
     /\ relayLog (snd (routes E r request w)) = relayLog w)
  \/ (exists v, fst (routes E r request w) = Return v
        /\ Spec.is_AuthResult v
        /\ relayLog (snd (routes E r request w)) = relayLog w)
  \/ (exists error tag,
        In tag (Outcomes.failure_tags r)
        /\ fst (routes E r request w) = Return (Spec.ReportableError error tag)
        /\ relayLog (snd (routes E r request w))
           = ("[Err] auth - " ++ tag, error) :: relayLog w).
Proof.
  destruct (routes_ending E r request w) as [e Hlog|error tag Htag Hlog|key user _ _ Hlog].
  - left. by exists e.
  - right. right. by exists error, tag.
  - right. left. eexists. split; [done|]. split; [|done]. by eexists _, _, _, _.
Qed.

(** X3.  The login and recheck paths never call the token endpoint; an
    OAuth callback calls it at most once, at the address of its provider,
    and queries the store only in a run in which it calls the endpoint. *)
Theorem token_endpoint_is_for_callbacks r request w :
  Outcomes.exchanges r w (snd (routes E r request w)).
Proof. apply routes_traces. Qed.

(** X4.  A callback with string [code] and [redirect_url] posts exactly
    one form to the token endpoint of its provider, whatever comes of it:
    the client parameters of the provider, then the redirect URL, the grant
    type and the code, the two values of the request inserted as they
    are. *)
Theorem callback_posts_the_exchange_form p request w code redirect_url :
  own (own request "body") "code" = VStr code ->
  own (own request "body") "redirect_url" = VStr redirect_url ->
  httpLog (snd (routes E (Spec.callback p) request w))
  = (Spec.token_endpoint p, Spec.exchange_form E p code redirect_url)
    :: httpLog w.
Proof.
  intros Hcode Hredirect.
  assert (Hbody := own_defined _ _ _ Hcode).
  assert (Hrequest := own_not_nullish _ _ Hbody).
  rewrite oauth_run. cbn zeta.
  rewrite (not_nullish_defined _ Hrequest), Hrequest, Hbody, Hcode, Hredirect.
  cbn. destruct (axios_post _ _ _ _) as [response|error].
  - repeat match goal with |- context [if ?b then _ else _] => destruct b end;
      try done.
    match goal with |- context [authenticateUser E ?o ?w0] =>
      destruct (authenticateUser_frame E o w0) as (_ & -> & _) end.
    done.
  - by rewrite handleError_run.
Qed.

(** X5.  A login with string username and password that the store rejects
    returns the ReportableError of the store's failure tagged
    [authenticateUser], without token, after one query of the store and
    one entry in the log. *)
Theorem rejected_login_is_reported request w username password error :
  Spec.is_object (own request "body") = true ->
  own (own request "body") "username" = VStr username ->
  own (own request "body") "password" = VStr password ->
  nullish (own request "normalizedHeaders") = false ->
  fst (getUser E (store w) (lowercase E username) (VStr password)) = Throw error ->
  routes E root_post request w
  = (Return (Spec.ReportableError error "authenticateUser"),
     log_error "[Err] auth - authenticateUser" error
       (after_query E (lowercase E username) (VStr password) w))
  /\ own (Spec.ReportableError error "authenticateUser") "type"
     = VStr "authenticateUser"
  /\ own (Spec.ReportableError error "authenticateUser") "jwt" = VUndef.
Proof.
  intros Hb Hu Hp Hh Hs.
  split; [|split; [apply ReportableError_type|apply ReportableError_jwt]].
  assert (Hr : nullish request = false) by by eapply own_not_nullish.
  rewrite routes_run, authChallenge_run.
  rewrite (not_nullish_defined _ Hr), Hr. cbn zeta.
  rewrite Hb, Hu, Hp, Hh. cbn.
  rewrite authenticateUser_run by done.
  rewrite !own_login_options. cbn. by rewrite Hs.
Qed.

(** X6.  Whenever an entry point queries the store, the key is a
    lower-cased string and the credential is the one of the path: the
    password of the body, a string, on the login path, and [undefined] on
    the recheck and OAuth paths. *)
Theorem credential_is_for_logins r request w :
  storeLog (snd (routes E r request w)) = storeLog w
  \/ exists u,
       storeLog (snd (routes E r request w))
       = (lowercase E u, Outcomes.credential r request) :: storeLog w
       /\ match r with
          | root_post => typeof_is (Outcomes.credential r request) "string" = true
          | _ => Outcomes.credential r request = VUndef
          end.
Proof.
  destruct (routes_traces E r request w) as [_ [Hsame | [u Hquery]]]; [by left|].
  destruct r; try (right; by exists u).
  revert Hquery. rewrite routes_run, authChallenge_run. cbn zeta.
  repeat match goal with
         | |- context [if ?b then _ else _] => destruct b eqn:?
         end.
  all: rewrite ?handleError_run; cbn [fst snd].
  all: try (intros _; by left).
  intros Hquery. right. exists u. split; [done|].
  unfold typeof_isnt in *. cbn.
  match goal with
  | H : negb ?b = false |- ?b = true => by apply negb_false_iff in H
  end.
Qed.

(** X7.  A login whose body is an object is told which field is wrong: a
    field that is [undefined] is reported as required, a field of any
    other type but string (also [null]) as having to be a string, the
    username before the password; the complaint is a bad-parameter error,
    logged once, and nothing else happens. *)
Theorem login_complaints request w message :
  Spec.is_object (own request "body") = true ->
  Outcomes.login_complaint (own request "body") = Some message ->
  routes E root_post request w
  = (Return (VObj {[ "error" := VStr message; "type" := VStr "bad params" ]}),
     log_error "[Err] auth - bad params" (VStr message) w).
Proof.
  intros Hb Hc.
  assert (Hr : nullish request = false).
  { apply (own_not_nullish _ "body"). by destruct (own request "body"). }
  rewrite routes_run, authChallenge_run.
  rewrite (not_nullish_defined _ Hr), Hr. cbn zeta. rewrite Hb. cbn.
  unfold Outcomes.login_complaint in Hc.
  destruct (own (own request "body") "username"); cbn;
    try (injection Hc as <-; by rewrite handleError_run, ReportableError_text).
  destruct (own (own request "body") "password"); cbn;
    try (injection Hc as <-; by rewrite handleError_run, ReportableError_text).
  done.
Qed.

(** X8.  The [serial] of every AuthResult is the customer of the verified
    payload on the recheck path, and [undefined] on the login and OAuth
    paths. *)
Theorem serial_is_the_rechecked_customer r request w v :
  fst (routes E r request w) = Return v ->
  Spec.is_AuthResult v ->
  own v "serial" = Outcomes.customer r request.
Proof.
  intros Hv Hauth.
  destruct (routes_success r request w v Hv Hauth) as (key & user & -> & _).
  apply minted_fields.
Qed.

(** X9.  No entry point returns an AuthResult without the store: the run
    has queried the store once, with the credential of the path, and the
    [user] of the result is the record that this query resolved to. *)
Theorem success_requires_store_resolution r request w v :
  fst (routes E r request w) = Return v ->
  Spec.is_AuthResult v ->
  exists key,
    storeLog (snd (routes E r request w))
    = (key, Outcomes.credential r request) :: storeLog w
    /\ fst (getUser E (store w) key (Outcomes.credential r request))
       = Return (own v "user").
Proof.
  intros Hv Hauth.
  destruct (routes_success r request w v Hv Hauth) as (key & user & -> & Hq & Hg).
  exists key. split; [done|].
  by destruct (minted_fields E (Outcomes.customer r request) user VUndef w)
    as (_ & _ & ->).
Qed.

(** X10.  The token of every AuthResult is signed at the time of the call,
    with [JWT_SECRET] and an expiry of 1,209,600 seconds, over the claims
    of the envelope it comes in: [cId] is its [serial], [uEmail] and
    [u_cId] are the [email] and [customer_id] of its [user]. *)
Theorem token_matches_envelope r request w v :
  fst (routes E r request w) = Return v ->
  Spec.is_AuthResult v ->
  own v "jwt"
  = jwt_sign E (clock w)
      (VObj {[ "data" := VObj {[ "cId" := own v "serial";
                                 "uEmail" := own (own v "user") "email";
                                 "u_cId" := own (own v "user") "customer_id" ]} ]})
      (process_env E "JWT_SECRET") 1209600.
Proof.
  intros Hv Hauth.
  destruct (routes_success r request w v Hv Hauth) as (key & user & -> & _).
  by destruct (minted_fields E (Outcomes.customer r request) user VUndef w)
    as (-> & -> & ->).
Qed.

(** X11.  Given options with a previous token, the resolver returns that
    token as it is, around the user that the store resolves. *)
Theorem resolver_reuses_previous_token options w username user :
  own options "userEmail" = VStr username ->
  truthy (own options "previousJwt") = true ->
  fst (getUser E (store w) (lowercase E username) (own options "password"))
  = Return user ->
  authenticateUser E options w
  = (Return (VObj {[ "jwt" := own options "previousJwt";
                     "serial" := own options "customerId";
                     "user" := user;
                     "redirectUrl" := own options "redirectUrl" ]}),
     after_query E (lowercase E username) (own options "password") w).
Proof.
  intros Hu Hprev Hg.
  rewrite authenticateUser_run by by eapply own_defined.
  rewrite Hu. cbn. by rewrite Hg, Hprev.
Qed.

(** X12.  Given options whose [userEmail] is no string, the resolver does
    not query the store: it returns the [TypeError] of the failed
    lower-casing as a ReportableError tagged [authenticateUser]. *)
Theorem resolver_rejects_non_string_email options w :
  nullish options = false ->
  typeof_isnt (own options "userEmail") "string" = true ->
  exists message,
    authenticateUser E options w
    = (Return (VObj {[ "error" := TypeError message;
                       "type" := VStr "authenticateUser" ]}),
       log_error "[Err] auth - authenticateUser" (TypeError message) w)
    /\ storeLog (snd (authenticateUser E options w)) = storeLog w.
Proof.
  intros Ho Hemail. rewrite authenticateUser_run by done.
  destruct (own options "userEmail"); try done; cbn; by eexists.
Qed.

(** X13.  On each OAuth path, when the exchange is granted but the
    identity token does not decode ([jwt.decode] yields [null]), the
    handler throws a [TypeError] after the call of the endpoint: the
    failure is neither translated nor logged, and the store is not
    queried. *)
Theorem undecodable_identity_token_throws p request w code redirect_url response :
  own (own request "body") "code" = VStr code ->
  own (own request "body") "redirect_url" = VStr redirect_url ->
  axios_post E (Spec.token_endpoint p)
    (Spec.exchange_form E p code redirect_url) form_urlencoded
  = Return response ->
  nullish (own response "data") = false ->
  jwt_decode E (own (own response "data") "id_token") = VNull ->
  routes E (Spec.callback p) request w
  = (Throw (cannot_read VNull (Spec.identity_claim p)),
     log_http (Spec.token_endpoint p)
       (Spec.exchange_form E p code redirect_url) w).
Proof.
  intros Hcode Hredirect Hpost Hdata Hnull.
  assert (Hbody := own_defined _ _ _ Hcode).
  assert (Hrequest := own_not_nullish _ _ Hbody).
  rewrite oauth_run. cbn zeta.
  rewrite (not_nullish_defined _ Hrequest), Hrequest, Hbody, Hcode, Hredirect.
  cbn. rewrite Hpost.
  by rewrite (own_not_nullish _ _ Hdata), Hdata, Hnull.
Qed.

(** X14.  When the store resolves to [undefined] or [null] instead of a
    record and there is no previous token, the resolver throws the
    [TypeError] of reading [email], after the query and outside its
    [try]: nothing is translated or logged. *)
Theorem resolver_throws_without_record options w username user :
  own options "userEmail" = VStr username ->
  truthy (own options "previousJwt") = false ->
  fst (getUser E (store w) (lowercase E username) (own options "password"))
  = Return user ->
  nullish user = true ->
  authenticateUser E options w
  = (Throw (cannot_read user "email"),
     after_query E (lowercase E username) (own options "password") w).
Proof.
  intros Hu Hprev Hg Hnull.
  rewrite authenticateUser_run by by eapply own_defined.
  rewrite Hu. cbn. by rewrite Hg, Hprev, Hnull.
Qed.

End Further.

(** ** The further properties at concrete requests *)

(** Bob signs in through Azure. *)
Lemma callback_mints_token_witness :
  routes (Demo.granting "Bob@X.com") azure_callback_post Demo.a_callback
    (Demo.world 100)
  = (Return Demo.bob_session,
     log_query "bob@x.com" VUndef
       (log_http "https://login.microsoftonline.com/common/oauth2/token"
          "client_id=az-id&client_secret=az-secret&resource=https://graph.windows.net/&redirect_uri=https://app/cb&grant_type=authorization_code&code=c0de"
          (Demo.world 100))).
Proof.
  refine (callback_mints_token (Demo.granting "Bob@X.com") Spec.azure
            Demo.a_callback (Demo.world 100) "c0de" "https://app/cb"
            (VObj {[ "status" := VNum 200;
                     "data" := VObj {[ "id_token" := VStr "Bob@X.com" ]} ]})
            "Bob@X.com" Demo.bob _ _ _ _ _ _ _).
  all: vm_compute; reflexivity.
Defined.

(** What a Google callback posts. *)
Lemma callback_posts_the_exchange_form_witness :
  httpLog (snd (routes Demo.refusing google_callback_post Demo.a_callback
                  (Demo.world 100)))
  = [("https://accounts.google.com/o/oauth2/token",
      "client_id=250992307284-m88p8nub2ormiak916etcu4ke3o850it.apps.googleusercontent.com&client_secret=g-secret&redirect_uri=https://app/cb&grant_type=authorization_code&code=c0de")].
Proof.
  refine (callback_posts_the_exchange_form Demo.refusing Spec.google
            Demo.a_callback (Demo.world 100) "c0de" "https://app/cb" _ _).
  all: vm_compute; reflexivity.
Defined.

(** Bob mistypes his password. *)
Lemma rejected_login_is_reported_witness :
  fst (routes Demo.refusing root_post Scenario.wrong_login (Demo.world 100))
  = Return (VObj {[ "error" := Demo.invalid_credentials;
                    "type" := VStr "authenticateUser" ]}).
Proof.
  refine (f_equal fst
            (proj1 (rejected_login_is_reported Demo.refusing Scenario.wrong_login
                      (Demo.world 100) "bob@x.com" "nope"
                      Demo.invalid_credentials _ _ _ _ _))).
  all: vm_compute; reflexivity.
Defined.

(** A login without password. *)
Lemma login_complaints_witness :
  fst (routes Demo.refusing root_post Scenario.passwordless_login (Demo.world 100))
  = Return (VObj {[ "error" := VStr "password required";
                    "type" := VStr "bad params" ]}).
Proof.
  refine (f_equal fst
            (login_complaints Demo.refusing Scenario.passwordless_login
               (Demo.world 100) "password required" _ _)).
  all: vm_compute; reflexivity.
Defined.

Lemma bob_rechecked_is_AuthResult : Spec.is_AuthResult Scenario.bob_rechecked.
Proof.
  by exists (VStr "C1.bob@x.com.C1.100.1209700.s3cret"), (VStr "C1"), Demo.bob, VUndef.
Defined.

(** The recheck of Bob's session keeps his customer. *)
Lemma serial_is_the_rechecked_customer_witness :
  own Scenario.bob_rechecked "serial" = VStr "C1".
Proof.
  refine (serial_is_the_rechecked_customer Demo.refusing jwt_check_get
            Demo.bob_recheck (Demo.world 100) Scenario.bob_rechecked _
            bob_rechecked_is_AuthResult).
  vm_compute; reflexivity.
Defined.

(** The recheck of Bob's session has asked the store for Bob. *)
Lemma success_requires_store_resolution_witness :
  exists key,
    storeLog (snd (routes Demo.refusing jwt_check_get Demo.bob_recheck
                     (Demo.world 100)))
    = [(key, VUndef)]
    /\ Demo.lookup_user Demo.users key VUndef = Return Demo.bob.
Proof.
  refine (success_requires_store_resolution Demo.refusing jwt_check_get
            Demo.bob_recheck (Demo.world 100) Scenario.bob_rechecked _
            bob_rechecked_is_AuthResult).
  vm_compute; reflexivity.
Defined.

(** The token of Bob's rechecked session is the signature of its claims. *)
Lemma token_matches_envelope_witness :
  own Scenario.bob_rechecked "jwt"
  = Demo.toy_sign 100
      (VObj {[ "data" := VObj {[ "cId" := VStr "C1";
                                 "uEmail" := VStr "bob@x.com";
                                 "u_cId" := VStr "C1" ]} ]})
      (VStr "s3cret") 1209600.
Proof.
  refine (token_matches_envelope Demo.refusing jwt_check_get
            Demo.bob_recheck (Demo.world 100) Scenario.bob_rechecked _
            bob_rechecked_is_AuthResult).
  vm_compute; reflexivity.
Defined.

(** The resolver hands a previous token back. *)
Lemma resolver_reuses_previous_token_witness :
  fst (authenticateUser Demo.refusing Scenario.reuse_options (Demo.world 100))
  = Return (VObj {[ "jwt" := VStr "prior.token"; "serial" := VStr "C1";
                    "user" := Demo.bob; "redirectUrl" := VUndef ]}).
Proof.
  refine (f_equal fst
            (resolver_reuses_previous_token Demo.refusing Scenario.reuse_options
               (Demo.world 100) "Bob@x.com" Demo.bob _ _ _)).
  all: vm_compute; reflexivity.
Defined.

(** A number is no email. *)
Lemma resolver_rejects_non_string_email_witness :
  exists message,
    authenticateUser Demo.refusing Scenario.numeric_email (Demo.world 100)
    = (Return (VObj {[ "error" := TypeError message;
                       "type" := VStr "authenticateUser" ]}),
       log_error "[Err] auth - authenticateUser" (TypeError message)
         (Demo.world 100))
    /\ storeLog (snd (authenticateUser Demo.refusing Scenario.numeric_email
                        (Demo.world 100))) = [].
Proof.
  refine (resolver_rejects_non_string_email Demo.refusing Scenario.numeric_email
            (Demo.world 100) _ _).
  all: vm_compute; reflexivity.
Defined.

(** A granted exchange without identity token. *)
Lemma undecodable_identity_token_throws_witness :
  fst (routes Scenario.tokenless google_callback_post Demo.a_callback
         (Demo.world 100))
  = Throw (cannot_read VNull "email").
Proof.
  refine (f_equal fst
            (undecodable_identity_token_throws Scenario.tokenless Spec.google
               Demo.a_callback (Demo.world 100) "c0de" "https://app/cb"
               (VObj {[ "data" := VObj ∅ ]}) _ _ _ _ _)).
  all: vm_compute; reflexivity.
Defined.

(** A store that resolves to nothing. *)
Lemma resolver_throws_without_record_witness :
  fst (authenticateUser Demo.refusing Scenario.as_ghost Scenario.ghost_world)
  = Throw (cannot_read VUndef "email").
Proof.
  refine (f_equal fst
            (resolver_throws_without_record Demo.refusing Scenario.as_ghost
               Scenario.ghost_world "ghost@x.com" VUndef _ _ _ _)).
  all: vm_compute; reflexivity.
Defined.
